(** * cabourotte: the DNS healthcheck and the one-off dispatch of the HTTP API

    A shallow embedding of [healthcheck/dns.go] and of the handlers of the
    [http] package.  Go methods with a pointer receiver are computations in
    ExtLib's state monad over the receiver and the effects it emits (log
    entries, resolver queries); the handlers also record the interface
    methods they call.  Go's [error] is [option error], [None] being
    [nil]. *)

From Stdlib.Strings Require Import String Ascii Byte.
From Stdlib Require Import List Bool ZArith NArith Lia.
From Stdlib Require Import DecimalString Permutation.
From ExtLib Require Import Structures.Monad Structures.MonadState.
From ExtLib Require Import Data.Monads.StateMonad.
Import ListNotations.
Import MonadNotation.
Local Open Scope monad_scope.
Local Open Scope string_scope.

(** ** Go errors *)

(** The error values this code builds or receives: [errors.New] and
    [errors.Wrapf] of github.com/pkg/errors, [fmt.Errorf], and the errors
    the platform resolver hands back. *)
Inductive error : Type :=
| errors_New (message : string)
| fmt_Errorf (message : string)
| errors_Wrapf (cause : error) (message : string)
| net_DNSError (message : string).

(** [err.Error()]: a wrapped error prints its message, a colon and its cause. *)
Fixpoint Error (e : error) : string :=
  match e with
  | errors_New m => m
  | fmt_Errorf m => m
  | errors_Wrapf c m => m ++ ": " ++ Error c
  | net_DNSError m => m
  end.

(** [errors.Cause]: the innermost error of a chain of wraps. *)
Fixpoint Cause (e : error) : error :=
  match e with
  | errors_Wrapf c _ => Cause c
  | _ => e
  end.

(** ** Package net: IP addresses *)

Module net.

(** [type IP []byte]. *)
Definition IP : Type := list byte.

Definition IPv4len : nat := 4.
Definition IPv6len : nat := 16.

Definition v4InV6Prefix : list byte :=
  [x00; x00; x00; x00; x00; x00; x00; x00; x00; x00; xff; xff].

(** [bytealg.Equal]. *)
Fixpoint bytes_Equal (a b : list byte) : bool :=
  match a, b with
  | [], [] => true
  | x :: a', y :: b' => Byte.eqb x y && bytes_Equal a' b'
  | _, _ => false
  end.

(** [func (ip IP) Equal(x IP) bool]. *)
Definition Equal (ip x : IP) : bool :=
  if Nat.eqb (length ip) (length x) then bytes_Equal ip x
  else if Nat.eqb (length ip) IPv4len && Nat.eqb (length x) IPv6len then
    bytes_Equal (firstn 12 x) v4InV6Prefix && bytes_Equal ip (skipn 12 x)
  else if Nat.eqb (length ip) IPv6len && Nat.eqb (length x) IPv4len then
    bytes_Equal (firstn 12 ip) v4InV6Prefix && bytes_Equal (skipn 12 ip) x
  else false.

Definition isZeros (p : list byte) : bool :=
  forallb (fun b => Byte.eqb b x00) p.

(** [func (ip IP) To4() IP]; the nil slice is the empty list. *)
Definition To4 (ip : IP) : IP :=
  if Nat.eqb (length ip) IPv4len then ip
  else if Nat.eqb (length ip) IPv6len
          && isZeros (firstn 10 ip)
          && Byte.eqb (nth 10 ip x00) xff
          && Byte.eqb (nth 11 ip x00) xff
  then firstn 4 (skipn 12 ip)
  else [].

(** [func (ip IP) To16() IP]. *)
Definition To16 (ip : IP) : IP :=
  if Nat.eqb (length ip) IPv4len then (v4InV6Prefix ++ ip)%list
  else if Nat.eqb (length ip) IPv6len then ip
  else [].

Definition hexDigit : string := "0123456789abcdef".

Definition digit (n : N) : string :=
  match String.get (N.to_nat n) hexDigit with
  | Some c => String c EmptyString
  | None => EmptyString
  end.

(** [hexString]: two lower-case digits a byte. *)
Fixpoint hexString (b : list byte) : string :=
  match b with
  | [] => EmptyString
  | x :: b' =>
      digit (N.shiftr (Byte.to_N x) 4) ++ digit (N.land (Byte.to_N x) 15)
      ++ hexString b'
  end.

(** [uitoa]: an unsigned number in decimal. *)
Definition uitoa (n : N) : string := NilZero.string_of_uint (N.to_uint n).

(** [netip.Addr.string4]: dotted decimal. *)
Definition string4 (p4 : IP) : string :=
  uitoa (Byte.to_N (nth 0 p4 x00)) ++ "." ++
  uitoa (Byte.to_N (nth 1 p4 x00)) ++ "." ++
  uitoa (Byte.to_N (nth 2 p4 x00)) ++ "." ++
  uitoa (Byte.to_N (nth 3 p4 x00)).

(** [v6u16]: the i-th 16-bit group of a 16-byte address. *)
Definition v6u16 (ip : IP) (i : nat) : N :=
  N.lor (N.shiftl (Byte.to_N (nth (2 * i) ip x00)) 8)
        (Byte.to_N (nth (2 * i + 1) ip x00)).

(** [appendHex]: a group without its leading zeros. *)
Definition appendHex (x : N) : string :=
  (if N.leb 4096 x then digit (N.shiftr x 12) else EmptyString) ++
  (if N.leb 256 x then digit (N.land (N.shiftr x 8) 15) else EmptyString) ++
  (if N.leb 16 x then digit (N.land (N.shiftr x 4) 15) else EmptyString) ++
  digit (N.land x 15).

(** The inner loop of [AppendTo6]: the end of the run of zero groups
    that starts at [j]. *)
Fixpoint zeroRun (fuel : nat) (ip : IP) (j : nat) : nat :=
  match fuel with
  | O => j
  | S fuel' =>
      if Nat.ltb j 8 && N.eqb (v6u16 ip j) 0 then zeroRun fuel' ip (S j)
      else j
  end.

(** The first loop of [AppendTo6]: the first longest run of at least two
    zero groups, [(255, 255)] when there is none. *)
Definition longestZeroRun (ip : IP) : nat * nat :=
  fold_left
    (fun (z : nat * nat) (i : nat) =>
       let j := zeroRun 8 ip i in
       let l := j - i in
       if Nat.leb 2 l && Nat.ltb (snd z - fst z) l then (i, j) else z)
    (seq 0 8) (255, 255)%nat.

(** The second loop of [AppendTo6]. *)
Fixpoint groups6 (fuel : nat) (ip : IP) (zeroStart zeroEnd i : nat) : string :=
  match fuel with
  | O => EmptyString
  | S fuel' =>
      if Nat.ltb i 8 then
        if Nat.eqb i zeroStart then
          "::" ++
          (if Nat.leb 8 zeroEnd then EmptyString
           else appendHex (v6u16 ip zeroEnd)
                ++ groups6 fuel' ip zeroStart zeroEnd (S zeroEnd))
        else
          (if Nat.ltb 0 i then ":" else EmptyString) ++ appendHex (v6u16 ip i)
          ++ groups6 fuel' ip zeroStart zeroEnd (S i)
      else EmptyString
  end.

(** [netip.Addr.string6] of an address without zone. *)
Definition string6 (ip : IP) : string :=
  let z := longestZeroRun ip in
  groups6 8 ip (fst z) (snd z) 0.

(** [func (ip IP) String() string]. *)
Definition String (ip : IP) : string :=
  if Nat.eqb (length ip) 0 then "<nil>"
  else if negb (Nat.eqb (length ip) IPv4len) && negb (Nat.eqb (length ip) IPv6len)
  then "?" ++ hexString ip
  else if Nat.eqb (length (To4 ip)) IPv4len then string4 (To4 ip)
  else string6 ip.

End net.

(** ** Effects *)

(** A [*zap.Logger] is a handle; what it writes is an effect. *)
Definition zap_Logger : Type := nat.

Inductive Level : Type := DebugLevel | InfoLevel | ErrorLevel.

(** What a run does to the outside, in the order it does it: the entries
    it logs and the names it asks the resolver for. *)
Inductive Event : Type :=
| zap_Entry (logger : zap_Logger) (lvl : Level) (msg : string)
            (fields : list (string * string))
| net_Lookup (domain : string).

(** A receiver behind a pointer, and the effects emitted so far. *)
Record Running (T : Type) : Type := mkRunning {
  this : T;
  effects : list Event
}.
Arguments mkRunning {T} _ _.
Arguments this {T} _.
Arguments effects {T} _.

Definition start {T : Type} (x : T) : Running T := mkRunning x [].

(** Computations of a method with receiver type [T]. *)
Abbreviation method T := (state (Running T)).

Definition receiver {T : Type} : method T T :=
  r <- get ;; ret (this r).

Definition assign {T : Type} (f : T -> T) : method T unit :=
  r <- get ;; put (mkRunning (f (this r)) (effects r)).

Definition emit {T : Type} (e : Event) : method T unit :=
  r <- get ;; put (mkRunning (this r) (effects r ++ [e])%list).

(** ** Package healthcheck *)

(** [type Duration time.Duration]: a signed 64-bit count of nanoseconds. *)
Definition Duration : Type := Z.
Bind Scope Z_scope with Duration.

Module time.
Definition Nanosecond : Z := 1.
Definition Second : Z := 1000000000 * Nanosecond.
(** [*time.Ticker], by its period. *)
Definition Ticker : Type := Z.
End time.

(** Modelled from the spec: the declaration of the [Base] struct is not
    among the sources; these are the fields of the base configuration the
    data model lists, under the names [dns.go] reads them by. *)
Record Base : Type := mkBase {
  Name : string;
  Description : string;
  Interval : Duration;
  OneOff : bool;
  Source : string
}.

(** [type IP net.IP]: [verifyIPs] converts an [IP] with [net.IP(...)]. *)
Definition IP : Type := net.IP.

Record DNSHealthcheckConfiguration : Type := mkDNSConfig {
  base : Base;
  ExpectedIPs : list IP;
  Domain : string
}.

Record DNSHealthcheck : Type := mkDNSHealthcheck {
  Logger : zap_Logger;
  Config : DNSHealthcheckConfiguration;
  URL : string;
  Tick : option time.Ticker
}.

(** [func (config *DNSHealthcheckConfiguration) Validate() error]. *)
Definition Validate : method DNSHealthcheckConfiguration (option error) :=
  config <- receiver ;;
  if String.eqb (Name (base config)) EmptyString then
    ret (Some (errors_New "The healthcheck name is missing"))
  else if String.eqb (Domain config) EmptyString then
    ret (Some (errors_New "The healthcheck domain is missing"))
  else if negb (OneOff (base config)) then
    if Z.ltb (Interval (base config)) (2 * time.Second) then
      ret (Some (errors_New
                   "The healthcheck interval should be greater than 2 second"))
    else ret None
  else ret None.

(** [func (h *DNSHealthcheck) Initialize() error]. *)
Definition Initialize : method DNSHealthcheck (option error) :=
  ret None.

(** [func (h *DNSHealthcheck) GetConfig() interface{}]. *)
Definition GetConfig : method DNSHealthcheck DNSHealthcheckConfiguration :=
  h <- receiver ;; ret (Config h).

(** [func (h *DNSHealthcheck) Base() Base]. *)
Definition Base_of : method DNSHealthcheck Base :=
  h <- receiver ;; ret (base (Config h)).

Definition set_Source (source : string) (b : Base) : Base :=
  mkBase (Name b) (Description b) (Interval b) (OneOff b) source.

Definition set_base (b : Base) (c : DNSHealthcheckConfiguration)
  : DNSHealthcheckConfiguration :=
  mkDNSConfig b (ExpectedIPs c) (Domain c).

Definition set_Config (c : DNSHealthcheckConfiguration) (h : DNSHealthcheck)
  : DNSHealthcheck :=
  mkDNSHealthcheck (Logger h) c (URL h) (Tick h).

(** [func (h *DNSHealthcheck) SetSource(source string)]:
    [h.Config.Base.Source = source]. *)
Definition SetSource (source : string) : method DNSHealthcheck unit :=
  assign (fun h =>
    set_Config (set_base (set_Source source (base (Config h))) (Config h)) h).

(** [func (h *DNSHealthcheck) Summary() string]. *)
Definition Summary : method DNSHealthcheck string :=
  h <- receiver ;;
  if negb (String.eqb (Description (base (Config h))) EmptyString) then
    ret (Description (base (Config h)) ++ " on " ++ Domain (Config h))
  else
    ret ("on " ++ Domain (Config h)).

(** [func (h *DNSHealthcheck) LogError(err error, message string)]. *)
Definition LogError (err : error) (message : string)
  : method DNSHealthcheck unit :=
  h <- receiver ;;
  emit (zap_Entry (Logger h) ErrorLevel (Error err)
          [("extra", message);
           ("domain", Domain (Config h));
           ("name", Name (base (Config h)))]).

(** [func (h *DNSHealthcheck) LogDebug(message string)]. *)
Definition LogDebug (message : string) : method DNSHealthcheck unit :=
  h <- receiver ;;
  emit (zap_Entry (Logger h) DebugLevel message
          [("domain", Domain (Config h));
           ("name", Name (base (Config h)))]).

(** [func (h *DNSHealthcheck) LogInfo(message string)]. *)
Definition LogInfo (message : string) : method DNSHealthcheck unit :=
  h <- receiver ;;
  emit (zap_Entry (Logger h) InfoLevel message
          [("domain", Domain (Config h));
           ("name", Name (base (Config h)))]).

(** The inner loop of [verifyIPs]: [found] after scanning [lookupIPs],
    leaving at the first equal address. *)
Fixpoint scanLookup (netIP : net.IP) (lookupIPs : list net.IP) : bool :=
  match lookupIPs with
  | [] => false
  | respIP :: rest =>
      if net.Equal netIP respIP then true else scanLookup netIP rest
  end.

(** The outer loop of [verifyIPs]: [notFound] after the expected addresses
    are gone through. *)
Fixpoint scanExpected (expectedIPs : list IP) (lookupIPs : list net.IP)
    (notFound : list string) : list string :=
  match expectedIPs with
  | [] => notFound
  | netIP :: rest =>
      let found := scanLookup netIP lookupIPs in
      scanExpected rest lookupIPs
        (if negb found then (notFound ++ [net.String netIP])%list
         else notFound)
  end.

(** The last loop of [verifyIPs]: [l = l + "," + notFound]. *)
Definition joinNotFound (notFound : list string) : string :=
  fold_left (fun l nf => l ++ "," ++ nf) notFound EmptyString.

(** [func verifyIPs(expectedIPs []IP, lookupIPs []net.IP) error]. *)
Definition verifyIPs (expectedIPs : list IP) (lookupIPs : list net.IP)
  : option error :=
  let notFound := scanExpected expectedIPs lookupIPs [] in
  if negb (Nat.eqb (length notFound) 0) then
    Some (fmt_Errorf
            ("Expected IP address not found. IPs found are "
             ++ joinNotFound notFound))
  else None.

Section Resolver.

(** [net.LookupIP]: the platform resolver, which answers with addresses
    and an error. *)
Variable LookupIP : string -> list net.IP * option error.

(** [func (h *DNSHealthcheck) Execute() error]. *)
Definition Execute : method DNSHealthcheck (option error) :=
  LogDebug "start executing healthcheck" ;;
  h <- receiver ;;
  emit (net_Lookup (Domain (Config h))) ;;
  let '(ips, err) := LookupIP (Domain (Config h)) in
  match err with
  | Some err => ret (Some (errors_Wrapf err "Fail to lookup IP for domain"))
  | None =>
      match verifyIPs (ExpectedIPs (Config h)) ips with
      | Some err => ret (Some err)
      | None => ret None
      end
  end.

End Resolver.

(** [func NewDNSHealthcheck(logger, config) *DNSHealthcheck]. *)
Definition NewDNSHealthcheck (logger : zap_Logger)
    (config : DNSHealthcheckConfiguration) : DNSHealthcheck :=
  mkDNSHealthcheck logger config EmptyString None.

(** The value a method returns, and the receiver and effects it leaves. *)
Definition returned {T A : Type} (m : method T A) (x : T) : A :=
  fst (runState m (start x)).
Definition after {T A : Type} (m : method T A) (x : T) : T :=
  this (snd (runState m (start x))).
Definition emitted {T A : Type} (m : method T A) (x : T) : list Event :=
  effects (snd (runState m (start x))).

(** Modelled from the spec: the declaration of the [Healthcheck] interface
    is not among the sources.  Of the capability set every probe type
    implements, these are the methods the HTTP handlers call:
    [Name() -> string] and [OneOff() -> bool], which read the
    configuration, and [Initialize() -> ok | Error] and
    [Execute() -> ok | ExecutionError], which run on the probe. *)
Class Healthcheck (H : Type) : Type := {
  hcName : H -> string;
  hcOneOff : H -> bool;
  hcInitialize : method H (option error);
  hcExecute : method H (option error)
}.

(** Modelled from the spec: [dns.go] as given has [Base()] and neither
    [Name()] nor [OneOff()]; a probe's identity is the name of its base
    configuration and its mode the [oneOff] flag of it. *)
Definition DNS_Name (h : DNSHealthcheck) : string := Name (base (Config h)).
Definition DNS_OneOff (h : DNSHealthcheck) : bool := OneOff (base (Config h)).

#[export] Instance DNSHealthcheck_Healthcheck
    (LookupIP : string -> list net.IP * option error)
  : Healthcheck DNSHealthcheck := {
  hcName := DNS_Name;
  hcOneOff := DNS_OneOff;
  hcInitialize := Initialize;
  hcExecute := Execute LookupIP
}.

(** ** Package http: the handlers *)

Module http.

Definition StatusOK : nat := 200.
Definition StatusCreated : nat := 201.
Definition StatusBadRequest : nat := 400.
Definition StatusInternalServerError : nat := 500.

(** [type BasicResponse struct { Message string }]. *)
Record BasicResponse : Type := mkBasicResponse { Message : string }.

(** What [ec.JSON(code, body)] writes. *)
Record Response : Type := mkResponse {
  code : nat;
  body : BasicResponse
}.

(** The methods of the probe and of the healthcheck component whose
    calls the dispatch is about. *)
Inductive Method : Type := mInitialize | mExecute | mAddCheck.

(** A step of a handler: an entry logged through [c.Logger], or a call,
    with the effects of the callee. *)
Inductive Step : Type :=
| Logs (lvl : Level) (msg : string)
| Calls (m : Method) (inner : list Event).

Definition called (s : Step) : list Method :=
  match s with
  | Logs _ _ => []
  | Calls m _ => [m]
  end.

(** The methods a trace calls, in order. *)
Definition calls (trace : list Step) : list Method := flat_map called trace.

Section Handlers.

(** The type of the submitted probe, and the state of the healthcheck
    component ([c.healthcheck]), whose code is not among the sources. *)
Context {H : Type} `{Healthcheck H} {R : Type}.

(** [c.healthcheck.AddCheck(healthcheck)]: it runs on the component's
    state and on the probe it is given. *)
Variable AddCheck : method (R * H) (option error).

(** The fields of [Component] the handlers use. *)
Record Component : Type := mkComponent {
  Logger : zap_Logger;
  healthcheck : R
}.

(** A request being handled: the component, the probe behind the
    interface value, and the steps taken so far. *)
Record Handling : Type := mkHandling {
  c : Component;
  check : H;
  trace : list Step
}.

Definition step (s : Step) : state Handling unit :=
  modify (fun st => mkHandling (c st) (check st) (trace st ++ [s])%list) ;;
  ret tt.

(** [c.Logger.Info(msg)] and [c.Logger.Error(msg)]. *)
Definition Logger_Info (msg : string) : state Handling unit :=
  step (Logs InfoLevel msg).
Definition Logger_Error (msg : string) : state Handling unit :=
  step (Logs ErrorLevel msg).

(** [ec.JSON(code, &BasicResponse{Message: msg})]. *)
Definition ec_JSON (code : nat) (msg : string) : state Handling Response :=
  ret (mkResponse code (mkBasicResponse msg)).

(** A call of a method of the probe. *)
Definition onCheck {A : Type} (m : Method) (f : method H A)
  : state Handling A :=
  st <- get ;;
  let '(a, r) := runState f (start (check st)) in
  put (mkHandling (c st) (this r)
         (trace st ++ [Calls m (effects r)])%list) ;;
  ret a.

(** A call of a method of the healthcheck component on the probe. *)
Definition onComponent {A : Type} (m : Method) (f : method (R * H) A)
  : state Handling A :=
  st <- get ;;
  let '(a, r) := runState f (start (healthcheck (c st), check st)) in
  put (mkHandling (mkComponent (Logger (c st)) (fst (this r)))
         (snd (this r))
         (trace st ++ [Calls m (effects r)])%list) ;;
  ret a.

Definition healthcheck_Name : state Handling string :=
  st <- get ;; ret (hcName (check st)).
Definition healthcheck_OneOff : state Handling bool :=
  st <- get ;; ret (hcOneOff (check st)).

(** [func (c *Component) addCheck(ec, healthcheck) error]. *)
Definition addCheck : state Handling Response :=
  err <- onComponent mAddCheck AddCheck ;;
  match err with
  | Some err =>
      let msg := "Fail to start the healthcheck: " ++ Error err in
      Logger_Error msg ;;
      ec_JSON StatusInternalServerError msg
  | None =>
      ec_JSON StatusCreated "Healthcheck successfully added"
  end.

(** [func (c *Component) oneOff(ec, healthcheck) error]. *)
Definition oneOff : state Handling Response :=
  name <- healthcheck_Name ;;
  Logger_Info ("Executing one-off healthcheck " ++ name) ;;
  err <- onCheck mInitialize hcInitialize ;;
  match err with
  | Some err =>
      name <- healthcheck_Name ;;
      let msg := "Fail to initialize one off healthcheck " ++ name
                 ++ ": " ++ Error err in
      Logger_Error msg ;;
      ec_JSON StatusInternalServerError msg
  | None =>
      err <- onCheck mExecute hcExecute ;;
      match err with
      | Some err =>
          name <- healthcheck_Name ;;
          let msg := "Execution of one off healthcheck " ++ name
                     ++ " failed: " ++ Error err in
          Logger_Error msg ;;
          ec_JSON StatusInternalServerError msg
      | None =>
          name <- healthcheck_Name ;;
          let msg := "One-off healthcheck " ++ name
                     ++ " successfully executed" in
          Logger_Info msg ;;
          ec_JSON StatusCreated msg
      end
  end.

(** [func (c *Component) handleCheck(ec, healthcheck) error]. *)
Definition handleCheck : state Handling Response :=
  b <- healthcheck_OneOff ;;
  if b : bool then oneOff else addCheck.

(** A handler run on a component and a submitted probe. *)
Definition handle (h : state Handling Response) (comp : Component)
    (probe : H) : Response * Handling :=
  runState h (mkHandling comp probe []).

End Handlers.

Arguments Component : clear implicits.

Section Routes.

(** The state of the healthcheck component, as in [Handlers]. *)
Context {R : Type}.

(** What a route leaves behind: the response written, the component, the
    probe it built when it built one, and the steps it took. *)
Record Served (H : Type) : Type := mkServed {
  response : Response;
  component : Component R;
  probe : option H;
  steps : list Step
}.
Arguments mkServed {H} _ _ _ _.
Arguments response {H} _.
Arguments component {H} _.
Arguments probe {H} _.
Arguments steps {H} _.

Section Post.

(** The configuration type and the probe type of a route, the word its
    message names the probe type by, and the constructor of the probe. *)
Context {C H : Type} `{Healthcheck H}.
Variable label : string.
Variable New : zap_Logger -> C -> H.
Variable AddCheck : method (R * H) (option error).

(** The handler of a [POST /healthcheck/...] route in [handlers], on what
    [ec.Bind(&config)] leaves: the configuration and the error. *)
Definition post (config : C) (err : option error) (comp : Component R)
  : Served H :=
  match err with
  | Some err =>
      let msg := "Fail to create the " ++ label
                 ++ " healthcheck. Invalid JSON: " ++ Error err in
      mkServed (mkResponse StatusBadRequest (mkBasicResponse msg))
        comp None [Logs ErrorLevel msg]
  | None =>
      let healthcheck := New (Logger comp) config in
      let '(resp, st) := handle (handleCheck AddCheck) comp healthcheck in
      mkServed resp (c st) (Some (check st)) (trace st)
  end.

End Post.

(** [c.Server.POST("/healthcheck/dns", ...)]. *)
Definition postDNS (LookupIP : string -> list net.IP * option error)
    (AddCheck : method (R * DNSHealthcheck) (option error))
  : DNSHealthcheckConfiguration -> option error -> Component R
    -> Served DNSHealthcheck :=
  post (H0 := DNSHealthcheck_Healthcheck LookupIP) "dns" NewDNSHealthcheck
    AddCheck.

Section OtherProbes.

(** The TCP and HTTP configurations, probes and constructors, which are
    not among the sources. *)
Context {CT HT CH HH : Type} `{Healthcheck HT} `{Healthcheck HH}.
Variable NewTCPHealthcheck : zap_Logger -> CT -> HT.
Variable NewHTTPHealthcheck : zap_Logger -> CH -> HH.

(** [c.Server.POST("/healthcheck/tcp", ...)]. *)
Definition postTCP (AddCheck : method (R * HT) (option error))
  : CT -> option error -> Component R -> Served HT :=
  post "TCP" NewTCPHealthcheck AddCheck.

(** [c.Server.POST("/healthcheck/http", ...)]. *)
Definition postHTTP (AddCheck : method (R * HH) (option error))
  : CH -> option error -> Component R -> Served HH :=
  post "HTTP" NewHTTPHealthcheck AddCheck.

End OtherProbes.

(** What the [DELETE] route leaves behind: the response, the component,
    the entries logged, and the effects of [RemoveCheck]. *)
Record Deleted : Type := mkDeleted {
  answer : Response;
  remaining : Component R;
  logged : list Step;
  removal : list Event
}.

(** [c.healthcheck.RemoveCheck(name)], which is not among the sources. *)
Variable RemoveCheck : string -> method R (option error).

(** [c.Server.DELETE("/healthcheck/:name", ...)], on the [name]
    parameter of the request. *)
Definition deleteCheck (name : string) (comp : Component R) : Deleted :=
  let entry := Logs InfoLevel ("Deleting healthcheck " ++ name) in
  let '(err, r) := runState (RemoveCheck name) (start (healthcheck comp)) in
  let comp' := mkComponent (Logger comp) (this r) in
  match err with
  | Some err =>
      let msg := "Fail to start the healthcheck: " ++ Error err in
      mkDeleted (mkResponse StatusInternalServerError (mkBasicResponse msg))
        comp' [entry; Logs ErrorLevel msg] (effects r)
  | None =>
      mkDeleted
        (mkResponse StatusOK
           (mkBasicResponse ("Successfully deleted healthcheck " ++ name)))
        comp' [entry] (effects r)
  end.

End Routes.

Arguments mkServed {R H} _ _ _ _.
Arguments response {R H} _.
Arguments component {R H} _.
Arguments probe {R H} _.
Arguments steps {R H} _.

End http.

(** * Vocabulary of the properties, and sample data *)

(** An address in one of the two forms [net] knows. *)
Definition wellFormed (ip : net.IP) : Prop :=
  length ip = net.IPv4len \/ length ip = net.IPv6len.

(** The expected addresses that are not among the resolved ones, in the
    order of the configuration. *)
Definition missing (expectedIPs : list IP) (lookupIPs : list net.IP)
  : list IP :=
  filter (fun netIP => negb (scanLookup netIP lookupIPs)) expectedIPs.

(** The names the last loop strings together: a comma before each. *)
Definition commaBefore (names : list string) : string :=
  String.concat EmptyString (map (fun nf => "," ++ nf) names).

(** Two addresses that denote the same host: both well formed, with the
    same 16-byte form. *)
Definition sameAddress (a b : net.IP) : Prop :=
  wellFormed a /\ wellFormed b /\ net.To16 a = net.To16 b.

(** Every expected address is among the resolved ones. *)
Definition contained (expectedIPs : list IP) (lookupIPs : list net.IP)
  : Prop :=
  forall netIP, In netIP expectedIPs ->
    exists respIP, In respIP lookupIPs /\ sameAddress netIP respIP.

(** The probe [h] with [ips] as the addresses it expects. *)
Definition set_ExpectedIPs (ips : list IP) (h : DNSHealthcheck)
  : DNSHealthcheck :=
  set_Config (mkDNSConfig (base (Config h)) ips (Domain (Config h))) h.

(** An IPv4 address and its IPv4-mapped IPv6 form. *)
Definition v4 (a b c d : byte) : net.IP := [a; b; c; d].
Definition v4mapped (a b c d : byte) : net.IP :=
  (net.v4InV6Prefix ++ [a; b; c; d])%list.

(** Four IPv4 addresses, in their 4-byte form. *)
Definition ip_10_0_0_1 : IP := [x0a; x00; x00; x01].
Definition ip_10_0_0_2 : IP := [x0a; x00; x00; x02].
Definition ip_10_0_0_3 : IP := [x0a; x00; x00; x03].
Definition ip_10_0_0_5 : IP := [x0a; x00; x00; x05].

(** A one-off probe of [example.com] that expects [expected]. *)
Definition probeExpecting (expected : list IP) : DNSHealthcheck :=
  NewDNSHealthcheck 0
    (mkDNSConfig (mkBase "dns-check" EmptyString 0 true EmptyString)
       expected "example.com").

(** A resolver that answers every name with [ips]. *)
Definition answering (ips : list net.IP)
  : string -> list net.IP * option error :=
  fun _ => (ips, None).

(** A resolver that knows no name. *)
Definition failing (err : error) : string -> list net.IP * option error :=
  fun _ => ([], Some err).

(** A periodic probe of [example.com] every [interval] nanoseconds. *)
Definition periodicConfig (interval : Duration) : DNSHealthcheckConfiguration :=
  mkDNSConfig (mkBase "dns-check" EmptyString interval false EmptyString)
    [] "example.com".

(** The configuration [config] with [interval] as its interval. *)
Definition set_Interval (interval : Duration)
    (config : DNSHealthcheckConfiguration) : DNSHealthcheckConfiguration :=
  set_base (mkBase (Name (base config)) (Description (base config)) interval
              (OneOff (base config)) (Source (base config))) config.

(** The text before the probe's name in the message of each of the two
    failures of a one-off run, and in the message of its success. *)
Definition initFailurePrefix : string :=
  "Fail to initialize one off healthcheck ".
Definition execFailurePrefix : string :=
  "Execution of one off healthcheck ".
Definition successPrefix : string := "One-off healthcheck ".

(** A component with a logger and no state, and an [AddCheck] that
    accepts every probe. *)
Definition bareComponent : http.Component unit := http.mkComponent 1 tt.
Definition acceptAll : method (unit * DNSHealthcheck) (option error) :=
  ret None.

(** The names the resolver is asked for among the effects of a run. *)
Definition lookups (events : list Event) : list string :=
  flat_map (fun e => match e with
                     | net_Lookup domain => [domain]
                     | zap_Entry _ _ _ _ => []
                     end) events.

(** The names the resolver is asked for in the calls of a handler. *)
Definition queries (steps : list http.Step) : list string :=
  flat_map (fun s => match s with
                     | http.Calls _ inner => lookups inner
                     | http.Logs _ _ => []
                     end) steps.

(** A periodic probe of [example.com] every ten seconds. *)
Definition periodicProbe : DNSHealthcheck :=
  NewDNSHealthcheck 1 (periodicConfig 10000000000).

(** An [AddCheck] that refuses every probe with [err]. *)
Definition refuseAll (err : error)
  : method (unit * DNSHealthcheck) (option error) :=
  ret (Some err).

(** * Properties *)

(** ** The text of an address *)

Example String_v4 : net.String [x0a; x00; x00; x05] = "10.0.0.5".
Proof. reflexivity. Qed.

Example String_v4in6 :
  net.String (net.v4InV6Prefix ++ [xc0; xa8; x01; xfe])%list = "192.168.1.254".
Proof. reflexivity. Qed.

Example String_v6 :
  net.String [x20; x01; x0d; xb8; x00; x00; x00; x00;
              x00; x00; x00; x00; x00; x00; x00; x01] = "2001:db8::1".
Proof. reflexivity. Qed.

Example String_v6_loopback :
  net.String [x00; x00; x00; x00; x00; x00; x00; x00;
              x00; x00; x00; x00; x00; x00; x00; x01] = "::1".
Proof. reflexivity. Qed.

Example String_v6_tail :
  net.String [xfe; x80; x00; x00; x00; x00; x00; x01;
              x00; x00; x00; x00; x00; x00; x00; x00] = "fe80:0:0:1::".
Proof. reflexivity. Qed.

(** ** Address comparison *)

Lemma bytes_Equal_eq (a b : list byte) : net.bytes_Equal a b = true <-> a = b.
Proof.
  revert b; induction a as [|x a IH]; intros [|y b]; simpl;
    try (split; [discriminate | congruence]); try tauto.
  rewrite andb_true_iff, IH. split.
  - intros [Hxy ->]. apply Byte.byte_dec_bl in Hxy. now subst.
  - intros [= -> ->]. split; [now apply Byte.byte_dec_lb | reflexivity].
Qed.

Lemma app_prefix_split (p a x : list byte) :
  length p = 12%nat ->
  (firstn 12 x = p /\ a = skipn 12 x) <-> (p ++ a)%list = x.
Proof.
  intros Hp. split.
  - intros [<- ->]. apply firstn_skipn.
  - intros <-. split.
    + rewrite firstn_app, <- Hp, Nat.sub_diag, firstn_all. simpl.
      apply app_nil_r.
    + rewrite skipn_app, <- Hp, Nat.sub_diag, skipn_all. reflexivity.
Qed.

(** On the addresses the resolver returns, [Equal] is equality of the
    16-byte forms; an ill-formed address equals none of them. *)
Lemma Equal_To16 (ip x : net.IP) :
  wellFormed x ->
  net.Equal ip x = true <-> (net.To16 ip = net.To16 x /\ wellFormed ip).
Proof.
  unfold wellFormed, net.Equal, net.To16, net.IPv4len, net.IPv6len.
  intros [Hx | Hx]; rewrite Hx; cbn [Nat.eqb];
    rewrite ?andb_true_r, ?andb_false_r;
    destruct (Nat.eqb_spec (length ip) 4) as [Hip4 | Hip4];
    destruct (Nat.eqb_spec (length ip) 16) as [Hip16 | Hip16];
    try (exfalso; congruence);
    rewrite ?andb_true_iff, ?bytes_Equal_eq.
  - split; [intros ->; auto | intros [Heq _]; now apply app_inv_head in Heq].
  - split.
    + intros [H1 H2]. split; [| auto].
      symmetry. apply app_prefix_split; [reflexivity | auto].
    + intros [Heq _]. symmetry in Heq.
      apply app_prefix_split in Heq; [| reflexivity].
      destruct Heq as [H1 H2]. auto.
  - split; [discriminate | tauto].
  - split.
    + intros [H1 H2]. split; [| auto].
      apply app_prefix_split; [reflexivity | auto].
    + intros [Heq _]. apply app_prefix_split in Heq; [| reflexivity]. tauto.
  - split; [intros ->; auto | tauto].
  - split; [discriminate | tauto].
Qed.

(** ** The loops of [verifyIPs] *)

Lemma scanLookup_existsb (netIP : net.IP) (lookupIPs : list net.IP) :
  scanLookup netIP lookupIPs = existsb (net.Equal netIP) lookupIPs.
Proof.
  induction lookupIPs as [|respIP rest IH]; simpl; [reflexivity |].
  rewrite IH. now destruct (net.Equal netIP respIP).
Qed.

Lemma scanLookup_true (netIP : net.IP) (lookupIPs : list net.IP) :
  scanLookup netIP lookupIPs = true <->
  exists respIP, In respIP lookupIPs /\ net.Equal netIP respIP = true.
Proof. rewrite scanLookup_existsb. apply existsb_exists. Qed.

Lemma scanExpected_missing (expectedIPs : list IP) (lookupIPs : list net.IP)
    (notFound : list string) :
  scanExpected expectedIPs lookupIPs notFound
  = (notFound ++ map net.String (missing expectedIPs lookupIPs))%list.
Proof.
  revert notFound.
  induction expectedIPs as [|netIP rest IH]; intros notFound; simpl.
  - now rewrite app_nil_r.
  - rewrite IH. destruct (scanLookup netIP lookupIPs); simpl.
    + reflexivity.
    + now rewrite <- app_assoc.
Qed.

Lemma missing_nil (expectedIPs : list IP) (lookupIPs : list net.IP) :
  missing expectedIPs lookupIPs = [] <->
  forall netIP, In netIP expectedIPs ->
    exists respIP, In respIP lookupIPs /\ net.Equal netIP respIP = true.
Proof.
  unfold missing. induction expectedIPs as [|netIP rest IH]; simpl.
  - split; [intros _ ? [] | reflexivity].
  - destruct (scanLookup netIP lookupIPs) eqn:E; simpl.
    + rewrite IH. split.
      * intros Hr ip [<- | Hin]; [now apply scanLookup_true | auto].
      * intros Hall ip Hin. apply Hall. now right.
    + split; [discriminate |]. intros Hall.
      assert (scanLookup netIP lookupIPs = true) as E'
        by (apply scanLookup_true, Hall; now left).
      congruence.
Qed.

Lemma string_app_assoc (a b c : string) : (a ++ b) ++ c = a ++ (b ++ c).
Proof. induction a as [|ch a IH]; simpl; [reflexivity | now rewrite IH]. Qed.

Lemma string_app_nil_r (a : string) : a ++ EmptyString = a.
Proof. induction a as [|ch a IH]; simpl; [reflexivity | now rewrite IH]. Qed.

Lemma concat_empty_cons (x : string) (xs : list string) :
  String.concat EmptyString (x :: xs) = x ++ String.concat EmptyString xs.
Proof.
  destruct xs as [|y ys]; simpl; [now rewrite string_app_nil_r | reflexivity].
Qed.

Lemma joinNotFound_commaBefore (notFound : list string) :
  joinNotFound notFound = commaBefore notFound.
Proof.
  unfold joinNotFound, commaBefore.
  enough (forall acc,
    fold_left (fun l nf => l ++ "," ++ nf) notFound acc
    = acc ++ String.concat EmptyString (map (fun nf => "," ++ nf) notFound))
    as Hacc by (rewrite Hacc; reflexivity).
  induction notFound as [|nf rest IH]; intros acc.
  - simpl. now rewrite string_app_nil_r.
  - cbn [fold_left map]. rewrite IH, concat_empty_cons.
    now rewrite string_app_assoc.
Qed.

(** [verifyIPs] in closed form: [nil] when nothing is missing, else the
    error that strings the missing addresses together. *)
Lemma verifyIPs_missing (expectedIPs : list IP) (lookupIPs : list net.IP) :
  verifyIPs expectedIPs lookupIPs =
  match missing expectedIPs lookupIPs with
  | [] => None
  | m => Some (fmt_Errorf
                 ("Expected IP address not found. IPs found are "
                  ++ commaBefore (map net.String m)))
  end.
Proof.
  unfold verifyIPs. rewrite scanExpected_missing, joinNotFound_commaBefore.
  simpl. destruct (missing expectedIPs lookupIPs); reflexivity.
Qed.

Lemma verifyIPs_nil_iff (expectedIPs : list IP) (lookupIPs : list net.IP) :
  verifyIPs expectedIPs lookupIPs = None <->
  forall netIP, In netIP expectedIPs ->
    exists respIP, In respIP lookupIPs /\ net.Equal netIP respIP = true.
Proof.
  rewrite verifyIPs_missing, <- missing_nil.
  destruct (missing expectedIPs lookupIPs); split; congruence.
Qed.

Lemma missing_In (expectedIPs : list IP) (lookupIPs : list net.IP)
    (netIP : IP) :
  In netIP (missing expectedIPs lookupIPs) <->
  In netIP expectedIPs /\
  forall respIP, In respIP lookupIPs -> net.Equal netIP respIP = false.
Proof.
  unfold missing. rewrite filter_In, negb_true_iff. split.
  - intros [Hin Hscan]. split; [assumption |]. intros respIP Hresp.
    destruct (net.Equal netIP respIP) eqn:E; [| reflexivity].
    assert (scanLookup netIP lookupIPs = true) as Ht
      by (apply scanLookup_true; eauto).
    congruence.
  - intros [Hin Hnone]. split; [assumption |].
    destruct (scanLookup netIP lookupIPs) eqn:E; [| reflexivity].
    apply scanLookup_true in E as (respIP & Hresp & Heq).
    rewrite (Hnone respIP Hresp) in Heq. discriminate.
Qed.

(** ** [Execute] *)

Section ExecuteFacts.

Variable LookupIP : string -> list net.IP * option error.

(** What [Execute] returns, by the resolver's answer. *)
Lemma Execute_returned (h : DNSHealthcheck) :
  returned (Execute LookupIP) h =
  match LookupIP (Domain (Config h)) with
  | (_, Some err) => Some (errors_Wrapf err "Fail to lookup IP for domain")
  | (ips, None) => verifyIPs (ExpectedIPs (Config h)) ips
  end.
Proof.
  unfold returned, Execute. cbn.
  destruct (LookupIP (Domain (Config h))) as [ips [err |]]; cbn;
    [reflexivity |].
  destruct (verifyIPs (ExpectedIPs (Config h)) ips); reflexivity.
Qed.

(** [Execute] logs its start, asks the resolver once, and leaves the
    probe as it was. *)
Lemma Execute_frame (h : DNSHealthcheck) :
  after (Execute LookupIP) h = h /\
  emitted (Execute LookupIP) h =
    [zap_Entry (Logger h) DebugLevel "start executing healthcheck"
       [("domain", Domain (Config h)); ("name", Name (base (Config h)))];
     net_Lookup (Domain (Config h))].
Proof.
  unfold after, emitted, Execute. cbn.
  destruct (LookupIP (Domain (Config h))) as [ips [err |]]; cbn;
    [split; reflexivity |].
  destruct (verifyIPs (ExpectedIPs (Config h)) ips); split; reflexivity.
Qed.

End ExecuteFacts.

Lemma contained_Equal (expectedIPs : list IP) (lookupIPs : list net.IP) :
  Forall wellFormed lookupIPs ->
  contained expectedIPs lookupIPs <->
  forall netIP, In netIP expectedIPs ->
    exists respIP, In respIP lookupIPs /\ net.Equal netIP respIP = true.
Proof.
  intros Hwf. rewrite Forall_forall in Hwf. unfold contained, sameAddress.
  split; intros Hall netIP Hin; destruct (Hall netIP Hin) as (r & Hr & Heq);
    exists r; (split; [assumption |]); pose proof (Hwf r Hr) as Hr'.
  - apply Equal_To16; tauto.
  - apply Equal_To16 in Heq; tauto.
Qed.

(** C1. With expected addresses configured, [Execute] succeeds exactly
    when every expected address is among the resolved ones under
    [net.IP.Equal] (a resolution that fails resolves none); on resolved
    addresses that is containment of hosts ([contained]), an IPv4-mapped
    address and its IPv4 form being the same host though not the same
    bytes; reordering either list or resolving more addresses keeps a
    success. *)
Theorem Execute_succeeds_iff_contained
    (LookupIP : string -> list net.IP * option error) (h : DNSHealthcheck)
    (ips : list net.IP) (err : option error) :
  ExpectedIPs (Config h) <> [] ->
  LookupIP (Domain (Config h)) = (ips, err) ->
  (err <> None -> ips = []) ->
  (returned (Execute LookupIP) h = None <->
     forall netIP, In netIP (ExpectedIPs (Config h)) ->
       exists respIP, In respIP ips /\ net.Equal netIP respIP = true)
  /\ (Forall wellFormed ips ->
      (returned (Execute LookupIP) h = None <->
         contained (ExpectedIPs (Config h)) ips))
  /\ (forall a b c d,
        net.Equal (v4 a b c d) (v4mapped a b c d) = true /\
        net.Equal (v4mapped a b c d) (v4 a b c d) = true /\
        v4 a b c d <> v4mapped a b c d)
  /\ (forall expected' ips' LookupIP',
        Permutation (ExpectedIPs (Config h)) expected' ->
        incl ips ips' ->
        LookupIP' (Domain (Config h)) = (ips', None) ->
        returned (Execute LookupIP) h = None ->
        returned (Execute LookupIP') (set_ExpectedIPs expected' h) = None).
Proof.
  intros Hexpected Hlookup Hnil.
  assert (returned (Execute LookupIP) h = None <->
          forall netIP, In netIP (ExpectedIPs (Config h)) ->
            exists respIP, In respIP ips /\ net.Equal netIP respIP = true)
    as Hiff.
  { rewrite Execute_returned, Hlookup. destruct err as [e |].
    - rewrite (Hnil ltac:(discriminate)). split; [discriminate |].
      intros Hall. destruct (ExpectedIPs (Config h)) as [| netIP rest];
        [contradiction |].
      destruct (Hall netIP (or_introl eq_refl)) as (r & [] & _).
    - apply verifyIPs_nil_iff. }
  split; [exact Hiff |]. split; [| split].
  - intros Hwf. rewrite Hiff. symmetry. now apply contained_Equal.
  - intros a b c d. unfold v4, v4mapped. split; [| split].
    + unfold net.Equal. cbn. now rewrite !Byte.byte_dec_lb.
    + unfold net.Equal. cbn. now rewrite !Byte.byte_dec_lb.
    + discriminate.
  - intros expected' ips' LookupIP' Hperm Hincl Hlookup' Hok.
    rewrite Execute_returned. cbn. rewrite Hlookup'.
    apply verifyIPs_nil_iff. intros netIP Hin.
    apply Permutation_sym in Hperm.
    apply (Permutation_in _ Hperm) in Hin.
    destruct (proj1 Hiff Hok netIP Hin) as (r & Hr & Heq).
    exists r. split; [now apply Hincl | assumption].
Qed.

Lemma Execute_succeeds_iff_contained_witness :
  returned (Execute (answering [ip_10_0_0_2; ip_10_0_0_1; ip_10_0_0_3]))
    (probeExpecting [ip_10_0_0_1; ip_10_0_0_2]) = None
  /\ contained [ip_10_0_0_1; ip_10_0_0_2]
       [ip_10_0_0_2; ip_10_0_0_1; ip_10_0_0_3].
Proof.
  destruct (Execute_succeeds_iff_contained
              (answering [ip_10_0_0_2; ip_10_0_0_1; ip_10_0_0_3])
              (probeExpecting [ip_10_0_0_1; ip_10_0_0_2])
              [ip_10_0_0_2; ip_10_0_0_1; ip_10_0_0_3] None)
    as (_ & Hhosts & _).
  - discriminate.
  - reflexivity.
  - intros Herr. contradiction Herr. reflexivity.
  - assert (returned
              (Execute (answering [ip_10_0_0_2; ip_10_0_0_1; ip_10_0_0_3]))
              (probeExpecting [ip_10_0_0_1; ip_10_0_0_2]) = None) as Hok
      by reflexivity.
    split; [exact Hok |]. apply Hhosts; [| exact Hok].
    repeat (apply Forall_cons; [left; reflexivity |]). apply Forall_nil.
Defined.

(** C6. With no expected address configured, [Execute] succeeds whenever
    the resolution succeeds, whatever addresses it resolves. *)
Theorem Execute_no_expected_succeeds
    (LookupIP : string -> list net.IP * option error) (h : DNSHealthcheck)
    (ips : list net.IP) :
  ExpectedIPs (Config h) = [] ->
  LookupIP (Domain (Config h)) = (ips, None) ->
  returned (Execute LookupIP) h = None.
Proof.
  intros Hnone Hlookup. rewrite Execute_returned, Hlookup, Hnone.
  reflexivity.
Qed.

Lemma Execute_no_expected_succeeds_witness :
  returned (Execute (answering [ip_10_0_0_3; ip_10_0_0_5]))
    (probeExpecting []) = None.
Proof.
  apply (Execute_no_expected_succeeds
           (answering [ip_10_0_0_3; ip_10_0_0_5]) (probeExpecting [])
           [ip_10_0_0_3; ip_10_0_0_5]); reflexivity.
Defined.

(** C7. When the resolution fails, [Execute] returns the lookup error
    wrapped: its cause is the cause of the lookup error and its message
    ends with the lookup error's; the expected addresses play no part
    in it. *)
Theorem Execute_lookup_failure_wrapped
    (LookupIP : string -> list net.IP * option error) (h : DNSHealthcheck)
    (ips : list net.IP) (err : error) :
  LookupIP (Domain (Config h)) = (ips, Some err) ->
  returned (Execute LookupIP) h
    = Some (errors_Wrapf err "Fail to lookup IP for domain")
  /\ Cause (errors_Wrapf err "Fail to lookup IP for domain") = Cause err
  /\ Error (errors_Wrapf err "Fail to lookup IP for domain")
     = "Fail to lookup IP for domain: " ++ Error err
  /\ (forall expected',
        returned (Execute LookupIP) (set_ExpectedIPs expected' h)
        = Some (errors_Wrapf err "Fail to lookup IP for domain"))
  /\ (forall expected' lookupIPs,
        verifyIPs expected' lookupIPs
        <> Some (errors_Wrapf err "Fail to lookup IP for domain")).
Proof.
  intros Hlookup. split; [| split; [| split; [| split]]].
  - now rewrite Execute_returned, Hlookup.
  - reflexivity.
  - reflexivity.
  - intros expected'. rewrite Execute_returned. cbn. now rewrite Hlookup.
  - intros expected' lookupIPs. rewrite verifyIPs_missing.
    destruct (missing expected' lookupIPs); discriminate.
Qed.

Lemma Execute_lookup_failure_wrapped_witness :
  returned (Execute (failing (net_DNSError "no such host")))
    (probeExpecting [ip_10_0_0_1])
  = Some (errors_Wrapf (net_DNSError "no such host")
            "Fail to lookup IP for domain").
Proof.
  apply (Execute_lookup_failure_wrapped
           (failing (net_DNSError "no such host"))
           (probeExpecting [ip_10_0_0_1]) [] (net_DNSError "no such host")).
  reflexivity.
Defined.

(** When the resolution succeeds and an expected address is missing, the
    error of [Execute] strings together the addresses of [missing], each
    after a comma. *)
Lemma Execute_mismatch_error
    (LookupIP : string -> list net.IP * option error) (h : DNSHealthcheck)
    (ips : list net.IP) (err : error) :
  LookupIP (Domain (Config h)) = (ips, None) ->
  returned (Execute LookupIP) h = Some err ->
  err = fmt_Errorf
          ("Expected IP address not found. IPs found are "
           ++ commaBefore
                (map net.String (missing (ExpectedIPs (Config h)) ips))).
Proof.
  intros Hlookup. rewrite Execute_returned, Hlookup, verifyIPs_missing.
  destruct (missing (ExpectedIPs (Config h)) ips); congruence.
Qed.

(** A comma before each name is a comma, then the names joined by
    commas. *)
Lemma commaBefore_concat (names : list string) :
  names <> [] -> commaBefore names = "," ++ String.concat "," names.
Proof.
  unfold commaBefore.
  induction names as [| name rest IH]; intros Hne; [contradiction |].
  cbn [map]. rewrite concat_empty_cons.
  destruct rest as [| name' rest'].
  - cbn. now rewrite string_app_nil_r.
  - rewrite IH by discriminate.
    change (String.concat "," (name :: name' :: rest'))
      with (name ++ "," ++ String.concat "," (name' :: rest')).
    now rewrite string_app_assoc.
Qed.

(** C3. When the resolution succeeds and the check of the expected
    addresses fails, the error of [Execute] is a fixed text followed by
    the texts of the missing addresses joined by commas; the missing
    addresses are the expected ones that no resolved address equals, in
    the order of the configuration, and no expected address that a
    resolved one equals is among them. *)
Theorem Execute_mismatch_lists_not_found
    (LookupIP : string -> list net.IP * option error) (h : DNSHealthcheck)
    (ips : list net.IP) (err : error) :
  LookupIP (Domain (Config h)) = (ips, None) ->
  returned (Execute LookupIP) h = Some err ->
  err = fmt_Errorf
          ("Expected IP address not found. IPs found are ,"
           ++ String.concat ","
                (map net.String (missing (ExpectedIPs (Config h)) ips)))
  /\ missing (ExpectedIPs (Config h)) ips
     = filter (fun netIP => negb (existsb (net.Equal netIP) ips))
         (ExpectedIPs (Config h))
  /\ (forall netIP,
        In netIP (missing (ExpectedIPs (Config h)) ips) <->
        In netIP (ExpectedIPs (Config h)) /\
        forall respIP, In respIP ips -> net.Equal netIP respIP = false)
  /\ (forall netIP respIP,
        In netIP (ExpectedIPs (Config h)) ->
        In respIP ips -> net.Equal netIP respIP = true ->
        ~ In netIP (missing (ExpectedIPs (Config h)) ips)).
Proof.
  intros Hlookup Herr. split; [| split; [| split]].
  - rewrite (Execute_mismatch_error LookupIP h ips err Hlookup Herr).
    rewrite Execute_returned, Hlookup, verifyIPs_missing in Herr.
    destruct (missing (ExpectedIPs (Config h)) ips) as [| m rest] eqn:Em;
      [discriminate Herr |].
    rewrite commaBefore_concat by discriminate.
    reflexivity.
  - unfold missing. apply filter_ext. intros netIP.
    now rewrite scanLookup_existsb.
  - intros netIP. apply missing_In.
  - intros netIP respIP _ Hresp Heq Hin.
    apply missing_In in Hin as [_ Hnone].
    rewrite (Hnone respIP Hresp) in Heq. discriminate Heq.
Qed.

Lemma Execute_mismatch_lists_not_found_witness :
  fmt_Errorf "Expected IP address not found. IPs found are ,10.0.0.5"
  = fmt_Errorf
      ("Expected IP address not found. IPs found are ,"
       ++ String.concat ","
            (map net.String
               (missing [ip_10_0_0_1; ip_10_0_0_5] [ip_10_0_0_1]))).
Proof.
  apply (Execute_mismatch_lists_not_found (answering [ip_10_0_0_1])
           (probeExpecting [ip_10_0_0_1; ip_10_0_0_5]) [ip_10_0_0_1]);
    reflexivity.
Defined.

(** ** [Validate] *)

(** What [Validate] decides on, read off its tests in their order. *)
Lemma Validate_returned (config : DNSHealthcheckConfiguration) :
  returned Validate config =
  if String.eqb (Name (base config)) EmptyString then
    Some (errors_New "The healthcheck name is missing")
  else if String.eqb (Domain config) EmptyString then
    Some (errors_New "The healthcheck domain is missing")
  else if negb (OneOff (base config))
          && Z.ltb (Interval (base config)) (2 * time.Second) then
    Some (errors_New
            "The healthcheck interval should be greater than 2 second")
  else None.
Proof.
  unfold returned, Validate. cbn.
  destruct (String.eqb (Name (base config)) EmptyString); [reflexivity |].
  destruct (String.eqb (Domain config) EmptyString); [reflexivity |].
  destruct (OneOff (base config)); [reflexivity |]. cbn.
  destruct (Z.ltb (Interval (base config)) _); reflexivity.
Qed.

(** [Validate] writes to nothing: neither to the configuration nor to the
    outside. *)
Lemma Validate_frame (r : Running DNSHealthcheckConfiguration) :
  snd (runState Validate r) = r.
Proof.
  unfold Validate. destruct r as [config effs]. cbn.
  destruct (String.eqb (Name (base config)) EmptyString); [reflexivity |].
  destruct (String.eqb (Domain config) EmptyString); [reflexivity |].
  destruct (OneOff (base config)); [reflexivity |]. cbn.
  destruct (Z.ltb (Interval (base config)) _); reflexivity.
Qed.

Ltac validate_cases config :=
  rewrite Validate_returned;
  destruct (String.eqb_spec (Name (base config)) EmptyString);
  destruct (String.eqb_spec (Domain config) EmptyString);
  destruct (OneOff (base config)); cbn [negb andb];
  destruct (Z.ltb_spec (Interval (base config)) (2 * time.Second)).

(** C2. A periodic configuration with a name and a domain is refused
    under two seconds of interval and accepted from two seconds on, two
    seconds sharp included. *)
Theorem Validate_periodic_interval (config : DNSHealthcheckConfiguration) :
  Name (base config) <> EmptyString ->
  Domain config <> EmptyString ->
  OneOff (base config) = false ->
  ((Interval (base config) < 2 * time.Second)%Z ->
     returned Validate config
     = Some (errors_New
               "The healthcheck interval should be greater than 2 second"))
  /\ ((2 * time.Second <= Interval (base config))%Z ->
        returned Validate config = None)
  /\ ((Interval (base config) = 2 * time.Second)%Z ->
        returned Validate config = None).
Proof.
  intros Hname Hdomain HoneOff.
  split; [| split]; intros Hinterval; validate_cases config;
    try reflexivity; try congruence; lia.
Qed.

Lemma Validate_periodic_interval_witness :
  returned Validate (periodicConfig 2000000000) = None
  /\ returned Validate (periodicConfig 1999999999)
     = Some (errors_New
               "The healthcheck interval should be greater than 2 second").
Proof.
  split.
  - apply (Validate_periodic_interval (periodicConfig 2000000000));
      [discriminate | discriminate | reflexivity | reflexivity].
  - apply (Validate_periodic_interval (periodicConfig 1999999999));
      [discriminate | discriminate | reflexivity | reflexivity].
Defined.

(** C4. [Validate] returns an error exactly when the name is empty, the
    domain is empty, or the configuration is periodic with an interval
    under two seconds; the message of the error names the field at fault,
    the first one in that order; and [Validate] changes neither the
    configuration nor anything outside. *)
Theorem Validate_error_iff (config : DNSHealthcheckConfiguration) :
  (returned Validate config <> None <->
     Name (base config) = EmptyString \/
     Domain config = EmptyString \/
     (OneOff (base config) = false /\
      (Interval (base config) < 2 * time.Second)%Z))
  /\ (Name (base config) = EmptyString ->
        returned Validate config
        = Some (errors_New "The healthcheck name is missing"))
  /\ (Name (base config) <> EmptyString -> Domain config = EmptyString ->
        returned Validate config
        = Some (errors_New "The healthcheck domain is missing"))
  /\ (Name (base config) <> EmptyString -> Domain config <> EmptyString ->
      OneOff (base config) = false ->
      (Interval (base config) < 2 * time.Second)%Z ->
        returned Validate config
        = Some (errors_New
                  "The healthcheck interval should be greater than 2 second"))
  /\ after Validate config = config
  /\ emitted Validate config = [].
Proof.
  split; [| split; [| split; [| split; [| split]]]].
  - validate_cases config; split; intros Hyp; try discriminate;
      try congruence; try tauto;
      try (destruct Hyp as [? | [? | [? ?]]]; congruence || lia).
  - intros Hname. validate_cases config; congruence.
  - intros Hname Hdomain. validate_cases config; congruence.
  - intros Hname Hdomain HoneOff Hinterval.
    validate_cases config; try congruence; lia.
  - unfold after. now rewrite Validate_frame.
  - unfold emitted. now rewrite Validate_frame.
Qed.

Lemma Validate_error_iff_witness :
  returned Validate
    (mkDNSConfig (mkBase "dns-check" EmptyString 5000000000 false EmptyString)
       [] EmptyString)
  = Some (errors_New "The healthcheck domain is missing").
Proof.
  apply (Validate_error_iff
           (mkDNSConfig
              (mkBase "dns-check" EmptyString 5000000000 false EmptyString)
              [] EmptyString));
    [discriminate | reflexivity].
Defined.

(** C5. A one-off configuration with a name and a domain is accepted with
    any interval in place of its own, zero and negative ones included: its
    interval plays no part in the answer. *)
Theorem Validate_one_off_any_interval
    (config : DNSHealthcheckConfiguration) (interval : Duration) :
  OneOff (base config) = true ->
  Name (base config) <> EmptyString ->
  Domain config <> EmptyString ->
  returned Validate (set_Interval interval config) = None.
Proof.
  intros HoneOff Hname Hdomain. rewrite Validate_returned. cbn.
  destruct (String.eqb_spec (Name (base config)) EmptyString);
    [contradiction |].
  destruct (String.eqb_spec (Domain config) EmptyString); [contradiction |].
  now rewrite HoneOff.
Qed.

Lemma Validate_one_off_any_interval_witness :
  returned Validate (set_Interval 0 (Config (probeExpecting []))) = None.
Proof.
  apply (Validate_one_off_any_interval (Config (probeExpecting [])) 0);
    [reflexivity | discriminate | discriminate].
Defined.

(** ** [Initialize] and [SetSource] *)

Lemma Initialize_run (r : Running DNSHealthcheck) :
  runState Initialize r = (None, r).
Proof. reflexivity. Qed.

(** C10. [SetSource] makes the tag the source of the base configuration
    and keeps every other field of the probe and of its configuration; it
    does nothing outside. *)
Theorem SetSource_frame (h : DNSHealthcheck) (tag : string) :
  Source (base (Config (after (SetSource tag) h))) = tag
  /\ Name (base (Config (after (SetSource tag) h))) = Name (base (Config h))
  /\ Description (base (Config (after (SetSource tag) h)))
     = Description (base (Config h))
  /\ Interval (base (Config (after (SetSource tag) h)))
     = Interval (base (Config h))
  /\ OneOff (base (Config (after (SetSource tag) h)))
     = OneOff (base (Config h))
  /\ Domain (Config (after (SetSource tag) h)) = Domain (Config h)
  /\ ExpectedIPs (Config (after (SetSource tag) h)) = ExpectedIPs (Config h)
  /\ Logger (after (SetSource tag) h) = Logger h
  /\ URL (after (SetSource tag) h) = URL h
  /\ Tick (after (SetSource tag) h) = Tick h
  /\ emitted (SetSource tag) h = [].
Proof. repeat split. Qed.

(** ** The dispatch of a submitted probe *)

Lemma run_eta {T A : Type} (m : method T A) (x : T) :
  runState m (start x) = (returned m x, mkRunning (after m x) (emitted m x)).
Proof.
  unfold returned, after, emitted.
  destruct (runState m (start x)) as [a [t e]]. reflexivity.
Qed.

Lemma prefixes_apart (s1 s2 s3 : string) :
  initFailurePrefix ++ s1 <> execFailurePrefix ++ s2
  /\ initFailurePrefix ++ s1 <> successPrefix ++ s3
  /\ execFailurePrefix ++ s2 <> successPrefix ++ s3.
Proof. repeat split; discriminate. Qed.

Section Dispatch.

Context {H : Type} `{Healthcheck H} {R : Type}.
Variable AddCheck : method (R * H) (option error).

(** A one-off run, by what [Initialize] and [Execute] return: the
    response, and the component, probe and steps it ends with. *)
Lemma oneOff_run (comp : http.Component R) (probe : H) :
  http.handle http.oneOff comp probe =
  let entry := http.Logs InfoLevel
                 ("Executing one-off healthcheck " ++ hcName probe) in
  let init := http.Calls http.mInitialize (emitted hcInitialize probe) in
  let h1 := after hcInitialize probe in
  match returned hcInitialize probe with
  | Some err =>
      let msg := initFailurePrefix ++ hcName h1 ++ ": " ++ Error err in
      (http.mkResponse http.StatusInternalServerError
         (http.mkBasicResponse msg),
       http.mkHandling comp h1 [entry; init; http.Logs ErrorLevel msg])
  | None =>
      let exec := http.Calls http.mExecute (emitted hcExecute h1) in
      let h2 := after hcExecute h1 in
      match returned hcExecute h1 with
      | Some err =>
          let msg := execFailurePrefix ++ hcName h2 ++ " failed: "
                     ++ Error err in
          (http.mkResponse http.StatusInternalServerError
             (http.mkBasicResponse msg),
           http.mkHandling comp h2
             [entry; init; exec; http.Logs ErrorLevel msg])
      | None =>
          let msg := successPrefix ++ hcName h2
                     ++ " successfully executed" in
          (http.mkResponse http.StatusCreated (http.mkBasicResponse msg),
           http.mkHandling comp h2
             [entry; init; exec; http.Logs InfoLevel msg])
      end
  end.
Proof.
  unfold http.handle, http.oneOff, http.onCheck. cbn.
  rewrite (run_eta hcInitialize probe). cbn.
  destruct (returned hcInitialize probe) as [ierr |]; cbn;
    [reflexivity |].
  rewrite (run_eta hcExecute (after hcInitialize probe)). cbn.
  destruct (returned hcExecute (after hcInitialize probe)) as [xerr |];
    reflexivity.
Qed.

Lemma handleCheck_runs_oneOff (comp : http.Component R) (probe : H) :
  hcOneOff probe = true ->
  http.handle (http.handleCheck AddCheck) comp probe
  = http.handle http.oneOff comp probe.
Proof.
  intros HoneOff. unfold http.handle, http.handleCheck. cbn.
  now rewrite HoneOff.
Qed.

(** C8. For a probe whose [OneOff()] is true, [handleCheck] calls
    [Initialize] and then [Execute] and never [AddCheck], and leaves the
    component as it was; when [Initialize] fails it does not call
    [Execute]; the response to a failed initialization and the response
    to a failed execution start with different texts; and the response
    is [201 Created] exactly when both calls returned without error. *)
Theorem handleCheck_one_off (comp : http.Component R) (probe : H) :
  hcOneOff probe = true ->
  let resp := fst (http.handle (http.handleCheck AddCheck) comp probe) in
  let final := snd (http.handle (http.handleCheck AddCheck) comp probe) in
  let h1 := after hcInitialize probe in
  let h2 := after hcExecute h1 in
  ~ In http.mAddCheck (http.calls (http.trace final))
  /\ http.c final = comp
  /\ (forall err, returned hcInitialize probe = Some err ->
        http.calls (http.trace final) = [http.mInitialize]
        /\ resp = http.mkResponse http.StatusInternalServerError
                    (http.mkBasicResponse
                       (initFailurePrefix ++ hcName h1 ++ ": "
                        ++ Error err)))
  /\ (forall err,
        returned hcInitialize probe = None ->
        returned hcExecute h1 = Some err ->
        http.calls (http.trace final) = [http.mInitialize; http.mExecute]
        /\ resp = http.mkResponse http.StatusInternalServerError
                    (http.mkBasicResponse
                       (execFailurePrefix ++ hcName h2 ++ " failed: "
                        ++ Error err)))
  /\ (returned hcInitialize probe = None ->
      returned hcExecute h1 = None ->
        http.calls (http.trace final) = [http.mInitialize; http.mExecute]
        /\ resp = http.mkResponse http.StatusCreated
                    (http.mkBasicResponse
                       (successPrefix ++ hcName h2
                        ++ " successfully executed")))
  /\ (http.code resp = http.StatusCreated <->
        returned hcInitialize probe = None /\
        returned hcExecute h1 = None)
  /\ (forall s1 s2, initFailurePrefix ++ s1 <> execFailurePrefix ++ s2).
Proof.
  intros HoneOff. cbv zeta.
  rewrite (handleCheck_runs_oneOff comp probe HoneOff), oneOff_run.
  cbv zeta.
  destruct (returned hcInitialize probe) as [ierr |];
    [| destruct (returned hcExecute (after hcInitialize probe))
         as [xerr |]];
    cbn; repeat split; try discriminate; try congruence;
    try (intros [Hc | [Hc | Hc]]; (discriminate Hc || exact Hc));
    try (intros [Hc | Hc]; (discriminate Hc || exact Hc));
    try (intros [? ?]; discriminate).
Qed.

End Dispatch.

Lemma handleCheck_one_off_witness :
  ~ In http.mAddCheck
      (http.calls
         (http.trace
            (snd (http.handle
                    (H := DNSHealthcheck)
                    (http.handleCheck
                       (H0 := DNSHealthcheck_Healthcheck
                                (answering [ip_10_0_0_1]))
                       acceptAll)
                    bareComponent (probeExpecting [ip_10_0_0_1]))))).
Proof.
  apply (handleCheck_one_off
           (H0 := DNSHealthcheck_Healthcheck (answering [ip_10_0_0_1]))
           acceptAll bareComponent (probeExpecting [ip_10_0_0_1])).
  reflexivity.
Defined.

(** C9. [Initialize] of a DNS probe returns no error and leaves the probe
    and the outside as they were; so the one-off run of a DNS probe always
    reaches [Execute], and its response never carries the message of a
    failed initialization. *)
Theorem DNS_Initialize_never_fails
    (LookupIP : string -> list net.IP * option error) {R : Type}
    (comp : http.Component R) (h : DNSHealthcheck)
    (r : Running DNSHealthcheck) :
  runState Initialize r = (None, r)
  /\ returned Initialize h = None
  /\ after Initialize h = h
  /\ emitted Initialize h = []
  /\ http.calls
       (http.trace
          (snd (http.handle
                  (http.oneOff (H0 := DNSHealthcheck_Healthcheck LookupIP))
                  comp h)))
     = [http.mInitialize; http.mExecute]
  /\ (forall s,
        http.Message
          (http.body
             (fst (http.handle
                     (http.oneOff
                        (H0 := DNSHealthcheck_Healthcheck LookupIP))
                     comp h)))
        <> initFailurePrefix ++ s).
Proof.
  split; [reflexivity |]. split; [reflexivity |].
  split; [reflexivity |]. split; [reflexivity |].
  rewrite oneOff_run. cbv zeta.
  change (returned hcInitialize h) with (@None error).
  change (after hcInitialize h) with h.
  destruct (returned hcExecute h) as [xerr |]; cbn;
    (split; [reflexivity | intros s; discriminate]).
Qed.

(** * Further properties *)

(** ** [verifyIPs] on its two lists *)

Lemma missing_app (e1 e2 : list IP) (lookupIPs : list net.IP) :
  missing (e1 ++ e2)%list lookupIPs
  = (missing e1 lookupIPs ++ missing e2 lookupIPs)%list.
Proof. unfold missing. apply filter_app. Qed.

(** X1. Checking a list of expected addresses is checking its parts: the
    missing addresses of [e1 ++ e2] are those of [e1] followed by those of
    [e2], and [verifyIPs] accepts the whole exactly when it accepts both
    parts. *)
Theorem verifyIPs_app (e1 e2 : list IP) (lookupIPs : list net.IP) :
  missing (e1 ++ e2)%list lookupIPs
  = (missing e1 lookupIPs ++ missing e2 lookupIPs)%list
  /\ (verifyIPs (e1 ++ e2)%list lookupIPs = None <->
      verifyIPs e1 lookupIPs = None /\ verifyIPs e2 lookupIPs = None).
Proof.
  split; [apply missing_app |].
  rewrite !verifyIPs_missing, missing_app.
  destruct (missing e1 lookupIPs), (missing e2 lookupIPs); cbn;
    intuition discriminate.
Qed.

Lemma scanLookup_same_elements (netIP : net.IP) (l l' : list net.IP) :
  (forall x, In x l <-> In x l') -> scanLookup netIP l = scanLookup netIP l'.
Proof.
  intros Hsame.
  destruct (scanLookup netIP l) eqn:El, (scanLookup netIP l') eqn:El';
    try reflexivity.
  - apply scanLookup_true in El as (r & Hr & Heq).
    assert (scanLookup netIP l' = true) as Ht
      by (apply scanLookup_true; exists r; split; [now apply Hsame | exact Heq]).
    congruence.
  - apply scanLookup_true in El' as (r & Hr & Heq).
    assert (scanLookup netIP l = true) as Ht
      by (apply scanLookup_true; exists r; split; [now apply Hsame | exact Heq]).
    congruence.
Qed.

(** X2. [verifyIPs] sees the resolved addresses as a set: two answers of
    the resolver with the same elements, in any order and with any
    repetition, give the same result, the same error included. *)
Theorem verifyIPs_same_resolved (expectedIPs : list IP)
    (l l' : list net.IP) :
  (forall x, In x l <-> In x l') ->
  verifyIPs expectedIPs l = verifyIPs expectedIPs l'.
Proof.
  intros Hsame. rewrite !verifyIPs_missing.
  replace (missing expectedIPs l') with (missing expectedIPs l);
    [reflexivity |].
  unfold missing. apply filter_ext. intros netIP.
  now rewrite (scanLookup_same_elements netIP l l' Hsame).
Qed.

Lemma verifyIPs_same_resolved_witness :
  verifyIPs [ip_10_0_0_1; ip_10_0_0_5] [ip_10_0_0_1; ip_10_0_0_2]
  = verifyIPs [ip_10_0_0_1; ip_10_0_0_5]
      [ip_10_0_0_2; ip_10_0_0_1; ip_10_0_0_2].
Proof.
  apply (verifyIPs_same_resolved [ip_10_0_0_1; ip_10_0_0_5]
           [ip_10_0_0_1; ip_10_0_0_2]
           [ip_10_0_0_2; ip_10_0_0_1; ip_10_0_0_2]).
  intros x. simpl. tauto.
Defined.

(** X3. When the resolver answers with no address, [verifyIPs] refuses
    any non-empty expectation and its error lists every expected address,
    in the order of the configuration. *)
Theorem verifyIPs_nothing_resolved (expectedIPs : list IP) :
  expectedIPs <> [] ->
  verifyIPs expectedIPs []
  = Some (fmt_Errorf
            ("Expected IP address not found. IPs found are "
             ++ commaBefore (map net.String expectedIPs))).
Proof.
  intros Hne. rewrite verifyIPs_missing.
  assert (missing expectedIPs [] = expectedIPs) as ->.
  { unfold missing. induction expectedIPs as [| ip rest IH];
      [reflexivity |].
    cbn. f_equal. destruct rest; [reflexivity | apply IH; discriminate]. }
  destruct expectedIPs; [contradiction | reflexivity].
Qed.

Lemma verifyIPs_nothing_resolved_witness :
  verifyIPs [ip_10_0_0_2; ip_10_0_0_1] []
  = Some (fmt_Errorf
            "Expected IP address not found. IPs found are ,10.0.0.2,10.0.0.1").
Proof.
  apply (verifyIPs_nothing_resolved [ip_10_0_0_2; ip_10_0_0_1]).
  discriminate.
Defined.

(** ** The form of the expected addresses *)

Lemma wellFormed_To16 (a : net.IP) : wellFormed a -> wellFormed (net.To16 a).
Proof.
  unfold wellFormed, net.To16, net.IPv4len, net.IPv6len.
  intros [Ha | Ha]; rewrite Ha; cbn [Nat.eqb]; [| auto].
  right. rewrite length_app, Ha. reflexivity.
Qed.

Lemma To16_To16 (a : net.IP) :
  wellFormed a -> net.To16 (net.To16 a) = net.To16 a.
Proof.
  unfold wellFormed, net.IPv4len, net.IPv6len. intros [Ha | Ha].
  - destruct a as [| a0 [| a1 [| a2 [| a3 [| a4 rest]]]]]; try discriminate.
    reflexivity.
  - assert (net.To16 a = a) as Hfix
      by (unfold net.To16, net.IPv4len, net.IPv6len; rewrite Ha;
          reflexivity).
    now rewrite !Hfix.
Qed.

Lemma Equal_ill_formed_r (a x : net.IP) :
  wellFormed a -> ~ wellFormed x -> net.Equal a x = false.
Proof.
  unfold wellFormed, net.Equal, net.IPv4len, net.IPv6len.
  intros Ha Hx.
  destruct (Nat.eqb_spec (length a) (length x)) as [E | E];
    [exfalso; apply Hx; rewrite <- E; exact Ha |].
  destruct (Nat.eqb_spec (length x) 16) as [E16 | E16]; [tauto |].
  destruct (Nat.eqb_spec (length x) 4) as [E4 | E4]; [tauto |].
  now rewrite !andb_false_r.
Qed.

(** Whether an address is well formed, as a test. *)
Lemma wellFormed_dec (x : net.IP) : {wellFormed x} + {~ wellFormed x}.
Proof.
  unfold wellFormed.
  destruct (Nat.eq_dec (length x) net.IPv4len);
    destruct (Nat.eq_dec (length x) net.IPv6len); tauto.
Qed.

Lemma Equal_To16_l (a x : net.IP) :
  wellFormed a -> net.Equal (net.To16 a) x = net.Equal a x.
Proof.
  intros Ha. destruct (wellFormed_dec x) as [Hx | Hx].
  - destruct (net.Equal (net.To16 a) x) eqn:E1, (net.Equal a x) eqn:E2;
      try reflexivity.
    + apply Equal_To16 in E1 as [E1 _]; [| exact Hx].
      rewrite (To16_To16 a Ha) in E1.
      assert (net.Equal a x = true) as Ht by (apply Equal_To16; auto).
      congruence.
    + apply Equal_To16 in E2 as [E2 _]; [| exact Hx].
      assert (net.Equal (net.To16 a) x = true) as Ht.
      { apply Equal_To16; [exact Hx |].
        rewrite (To16_To16 a Ha). auto using wellFormed_To16. }
      congruence.
  - rewrite !Equal_ill_formed_r; auto using wellFormed_To16.
Qed.

Lemma String_To16 (a : net.IP) :
  wellFormed a -> net.String (net.To16 a) = net.String a.
Proof.
  unfold wellFormed, net.IPv4len, net.IPv6len. intros [Ha | Ha].
  - destruct a as [| a0 [| a1 [| a2 [| a3 [| a4 rest]]]]]; try discriminate.
    reflexivity.
  - unfold net.To16, net.IPv4len, net.IPv6len. rewrite Ha. reflexivity.
Qed.

Lemma scanLookup_To16 (a : net.IP) (lookupIPs : list net.IP) :
  wellFormed a -> scanLookup (net.To16 a) lookupIPs = scanLookup a lookupIPs.
Proof.
  intros Ha. induction lookupIPs as [| respIP rest IH]; [reflexivity |].
  cbn [scanLookup]. now rewrite (Equal_To16_l a respIP Ha), IH.
Qed.

(** X4. [verifyIPs] does not depend on the form the expected addresses
    are configured in: with every well-formed expected address replaced by
    its 16-byte form, the result is the same, the text of the error
    included. *)
Theorem verifyIPs_expected_form (expectedIPs : list IP)
    (lookupIPs : list net.IP) :
  Forall wellFormed expectedIPs ->
  verifyIPs (map net.To16 expectedIPs) lookupIPs
  = verifyIPs expectedIPs lookupIPs.
Proof.
  intros Hwf. rewrite !verifyIPs_missing.
  assert (map net.String (missing (map net.To16 expectedIPs) lookupIPs)
          = map net.String (missing expectedIPs lookupIPs)) as Hnames.
  { unfold missing.
    induction Hwf as [| a rest Ha Hrest IH]; [reflexivity |].
    cbn [map filter]. rewrite (scanLookup_To16 a lookupIPs Ha).
    destruct (scanLookup a lookupIPs); cbn [negb map]; [exact IH |].
    now rewrite IH, (String_To16 a Ha). }
  destruct (missing (map net.To16 expectedIPs) lookupIPs) eqn:E1,
           (missing expectedIPs lookupIPs) eqn:E2;
    try (cbn in Hnames; discriminate Hnames); [reflexivity |].
  now rewrite Hnames.
Qed.

Lemma verifyIPs_expected_form_witness :
  verifyIPs (map net.To16 [ip_10_0_0_1; ip_10_0_0_5]) [ip_10_0_0_1]
  = verifyIPs [ip_10_0_0_1; ip_10_0_0_5] [ip_10_0_0_1].
Proof.
  apply (verifyIPs_expected_form [ip_10_0_0_1; ip_10_0_0_5] [ip_10_0_0_1]).
  repeat (apply Forall_cons; [left; reflexivity |]). apply Forall_nil.
Defined.

(** X5. An expected address that is not well formed is never found among
    well-formed resolved addresses: with one configured, [Execute] fails
    on every successful resolution. *)
Theorem Execute_ill_formed_expected_fails
    (LookupIP : string -> list net.IP * option error) (h : DNSHealthcheck)
    (ips : list net.IP) (netIP : IP) :
  In netIP (ExpectedIPs (Config h)) ->
  ~ wellFormed netIP ->
  LookupIP (Domain (Config h)) = (ips, None) ->
  Forall wellFormed ips ->
  returned (Execute LookupIP) h <> None.
Proof.
  intros Hin Hill Hlookup Hwf Hok.
  rewrite Execute_returned, Hlookup in Hok.
  destruct (proj1 (verifyIPs_nil_iff _ _) Hok netIP Hin) as (r & Hr & Heq).
  rewrite Forall_forall in Hwf.
  apply Equal_To16 in Heq; [| now apply Hwf]. tauto.
Qed.

Lemma Execute_ill_formed_expected_fails_witness :
  returned (Execute (answering [ip_10_0_0_1]))
    (probeExpecting [ip_10_0_0_1; []]) <> None.
Proof.
  apply (Execute_ill_formed_expected_fails (answering [ip_10_0_0_1])
           (probeExpecting [ip_10_0_0_1; []]) [ip_10_0_0_1] []).
  - right. left. reflexivity.
  - intros [Hl | Hl]; discriminate Hl.
  - reflexivity.
  - apply Forall_cons; [left; reflexivity | apply Forall_nil].
Defined.

(** ** What [Execute] reports and does *)

(** X6. When the resolution succeeds and [Execute] fails, its error is
    the fixed text followed by a comma and the text of each missing
    address; the missing addresses are the expected ones that no resolved
    address equals, each as often and in the order it is configured, and
    there is at least one. *)
Theorem Execute_error_lists_missing
    (LookupIP : string -> list net.IP * option error) (h : DNSHealthcheck)
    (ips : list net.IP) (err : error) :
  LookupIP (Domain (Config h)) = (ips, None) ->
  returned (Execute LookupIP) h = Some err ->
  err = fmt_Errorf
          ("Expected IP address not found. IPs found are "
           ++ commaBefore
                (map net.String (missing (ExpectedIPs (Config h)) ips)))
  /\ missing (ExpectedIPs (Config h)) ips
     = filter (fun netIP => negb (existsb (net.Equal netIP) ips))
         (ExpectedIPs (Config h))
  /\ missing (ExpectedIPs (Config h)) ips <> []
  /\ (forall netIP,
        In netIP (missing (ExpectedIPs (Config h)) ips) <->
        In netIP (ExpectedIPs (Config h)) /\
        forall respIP, In respIP ips -> net.Equal netIP respIP = false).
Proof.
  intros Hlookup Herr. split; [| split; [| split]].
  - exact (Execute_mismatch_error LookupIP h ips err Hlookup Herr).
  - unfold missing. apply filter_ext. intros netIP.
    now rewrite scanLookup_existsb.
  - rewrite Execute_returned, Hlookup, verifyIPs_missing in Herr.
    destruct (missing (ExpectedIPs (Config h)) ips); [discriminate Herr |].
    discriminate.
  - intros netIP. apply missing_In.
Qed.

Lemma Execute_error_lists_missing_witness :
  fmt_Errorf "Expected IP address not found. IPs found are ,10.0.0.5,10.0.0.2"
  = fmt_Errorf
      ("Expected IP address not found. IPs found are "
       ++ commaBefore
            (map net.String
               (missing [ip_10_0_0_5; ip_10_0_0_1; ip_10_0_0_2]
                  [ip_10_0_0_1; ip_10_0_0_3]))).
Proof.
  apply (Execute_error_lists_missing
           (answering [ip_10_0_0_1; ip_10_0_0_3])
           (probeExpecting [ip_10_0_0_5; ip_10_0_0_1; ip_10_0_0_2])
           [ip_10_0_0_1; ip_10_0_0_3]); reflexivity.
Defined.

(** X7. Whatever the resolver answers, [Execute] logs its start, asks the
    resolver once, for the configured domain, and does nothing else: it
    does not ask again after a failure, and it leaves the probe as it
    was. *)
Theorem Execute_one_lookup
    (LookupIP : string -> list net.IP * option error) (h : DNSHealthcheck) :
  lookups (emitted (Execute LookupIP) h) = [Domain (Config h)]
  /\ emitted (Execute LookupIP) h =
       [zap_Entry (Logger h) DebugLevel "start executing healthcheck"
          [("domain", Domain (Config h)); ("name", Name (base (Config h)))];
        net_Lookup (Domain (Config h))]
  /\ after (Execute LookupIP) h = h.
Proof.
  destruct (Execute_frame LookupIP h) as [Hafter Hemitted].
  rewrite Hemitted. repeat split. exact Hafter.
Qed.

(** ** [SetSource] and the other methods *)

(** X8. Of two calls of [SetSource] the last one wins, and setting the
    source a probe already has leaves the probe as it is. *)
Theorem SetSource_last_wins (h : DNSHealthcheck) (tag1 tag2 : string) :
  after (SetSource tag2) (after (SetSource tag1) h) = after (SetSource tag2) h
  /\ after (SetSource (Source (base (Config h)))) h = h.
Proof.
  split; [reflexivity |].
  destruct h as [logger [[name description interval oneOff source] ips domain]
                   url tick].
  reflexivity.
Qed.

(** What [Summary] returns, and that it writes to nothing. *)
Lemma Summary_run (r : Running DNSHealthcheck) :
  runState Summary r =
  (if negb (String.eqb (Description (base (Config (this r)))) EmptyString)
   then Description (base (Config (this r))) ++ " on "
        ++ Domain (Config (this r))
   else "on " ++ Domain (Config (this r)),
   r).
Proof.
  destruct r as [h effs]. unfold Summary. cbn.
  destruct (String.eqb (Description (base (Config h))) EmptyString);
    reflexivity.
Qed.

(** X9. [SetSource] changes what [Base()] and [GetConfig()] return, by
    the source alone, and changes no answer of the methods that act on the
    configuration: after it, [Validate], [Summary] and [Execute] return
    what they returned before, [Execute] has the same effects, and the
    name and the mode of the probe are the same. *)
Theorem SetSource_keeps_answers
    (LookupIP : string -> list net.IP * option error) (h : DNSHealthcheck)
    (tag : string) :
  returned Validate (Config (after (SetSource tag) h))
  = returned Validate (Config h)
  /\ returned Summary (after (SetSource tag) h) = returned Summary h
  /\ returned (Execute LookupIP) (after (SetSource tag) h)
     = returned (Execute LookupIP) h
  /\ emitted (Execute LookupIP) (after (SetSource tag) h)
     = emitted (Execute LookupIP) h
  /\ DNS_Name (after (SetSource tag) h) = DNS_Name h
  /\ DNS_OneOff (after (SetSource tag) h) = DNS_OneOff h
  /\ returned Base_of (after (SetSource tag) h)
     = set_Source tag (returned Base_of h)
  /\ returned GetConfig (after (SetSource tag) h)
     = set_base (set_Source tag (base (returned GetConfig h)))
         (returned GetConfig h).
Proof.
  split; [now rewrite !Validate_returned |].
  split; [unfold returned; now rewrite !Summary_run |].
  split; [now rewrite !Execute_returned |].
  split; [| repeat split].
  destruct (Execute_frame LookupIP h) as [_ ->].
  destruct (Execute_frame LookupIP (after (SetSource tag) h)) as [_ ->].
  reflexivity.
Qed.

(** ** More on [Validate] *)

(** X10. [Validate] looks at the name, the domain, the mode and the
    interval and at nothing else: two configurations that agree on these
    get the same answer, whatever their expected addresses, description
    and source. *)
Theorem Validate_looks_at (c1 c2 : DNSHealthcheckConfiguration) :
  Name (base c1) = Name (base c2) ->
  Domain c1 = Domain c2 ->
  OneOff (base c1) = OneOff (base c2) ->
  Interval (base c1) = Interval (base c2) ->
  returned Validate c1 = returned Validate c2.
Proof.
  intros Hname Hdomain HoneOff Hinterval.
  now rewrite !Validate_returned, Hname, Hdomain, HoneOff, Hinterval.
Qed.

Lemma Validate_looks_at_witness :
  returned Validate
    (mkDNSConfig (mkBase "dns-check" "first" 1 false "api")
       [[]; ip_10_0_0_1] "example.com")
  = returned Validate
      (mkDNSConfig (mkBase "dns-check" "second" 1 false "file")
         [] "example.com").
Proof.
  apply (Validate_looks_at
           (mkDNSConfig (mkBase "dns-check" "first" 1 false "api")
              [[]; ip_10_0_0_1] "example.com")
           (mkDNSConfig (mkBase "dns-check" "second" 1 false "file")
              [] "example.com")); reflexivity.
Defined.

(** X11. A configuration that [Validate] accepts is still accepted with
    any longer interval. *)
Theorem Validate_longer_interval
    (config : DNSHealthcheckConfiguration) (interval : Duration) :
  returned Validate config = None ->
  (Interval (base config) <= interval)%Z ->
  returned Validate (set_Interval interval config) = None.
Proof.
  intros Hok Hle. rewrite Validate_returned in *. cbn.
  destruct (String.eqb (Name (base config)) EmptyString); [discriminate |].
  destruct (String.eqb (Domain config) EmptyString); [discriminate |].
  destruct (OneOff (base config)); cbn [negb andb] in *; [reflexivity |].
  change (2 * time.Second)%Z with 2000000000%Z in *.
  destruct (Z.ltb_spec (Interval (base config)) 2000000000);
    [discriminate |].
  destruct (Z.ltb_spec interval 2000000000); [lia | reflexivity].
Qed.

Lemma Validate_longer_interval_witness :
  returned Validate (set_Interval 60000000000 (periodicConfig 2000000000))
  = None.
Proof.
  apply (Validate_longer_interval (periodicConfig 2000000000) 60000000000);
    [reflexivity | discriminate].
Defined.

(** ** The periodic path and the answers of [handleCheck] *)

Section MoreDispatch.

Context {H : Type} `{Healthcheck H} {R : Type}.
Variable AddCheck : method (R * H) (option error).

(** A run of [addCheck], by what [AddCheck] returns and leaves. *)
Lemma addCheck_run (comp : http.Component R) (probe : H) :
  http.handle (http.addCheck AddCheck) comp probe =
  let left := after AddCheck (http.healthcheck comp, probe) in
  let call := http.Calls http.mAddCheck
                (emitted AddCheck (http.healthcheck comp, probe)) in
  let comp' := http.mkComponent (http.Logger comp) (fst left) in
  match returned AddCheck (http.healthcheck comp, probe) with
  | Some err =>
      let msg := "Fail to start the healthcheck: " ++ Error err in
      (http.mkResponse http.StatusInternalServerError
         (http.mkBasicResponse msg),
       http.mkHandling comp' (snd left) [call; http.Logs ErrorLevel msg])
  | None =>
      (http.mkResponse http.StatusCreated
         (http.mkBasicResponse "Healthcheck successfully added"),
       http.mkHandling comp' (snd left) [call])
  end.
Proof.
  unfold http.handle, http.addCheck, http.onComponent. cbn.
  rewrite (run_eta AddCheck (http.healthcheck comp, probe)). cbn.
  destruct (returned AddCheck (http.healthcheck comp, probe)); reflexivity.
Qed.

Lemma handleCheck_runs_addCheck (comp : http.Component R) (probe : H) :
  hcOneOff probe = false ->
  http.handle (http.handleCheck AddCheck) comp probe
  = http.handle (http.addCheck AddCheck) comp probe.
Proof.
  intros Hperiodic. unfold http.handle, http.handleCheck. cbn.
  now rewrite Hperiodic.
Qed.

(** X12. For a probe whose [OneOff()] is false, [handleCheck] calls
    [AddCheck] once and neither [Initialize] nor [Execute]; it answers
    [201 Created] exactly when [AddCheck] returns no error and [500] with
    the error's text otherwise; the component keeps its logger and gets
    the state [AddCheck] leaves. *)
Theorem handleCheck_periodic (comp : http.Component R) (probe : H) :
  hcOneOff probe = false ->
  let resp := fst (http.handle (http.handleCheck AddCheck) comp probe) in
  let final := snd (http.handle (http.handleCheck AddCheck) comp probe) in
  http.calls (http.trace final) = [http.mAddCheck]
  /\ (http.code resp = http.StatusCreated <->
      returned AddCheck (http.healthcheck comp, probe) = None)
  /\ (returned AddCheck (http.healthcheck comp, probe) = None ->
      resp = http.mkResponse http.StatusCreated
               (http.mkBasicResponse "Healthcheck successfully added"))
  /\ (forall err,
        returned AddCheck (http.healthcheck comp, probe) = Some err ->
        resp = http.mkResponse http.StatusInternalServerError
                 (http.mkBasicResponse
                    ("Fail to start the healthcheck: " ++ Error err)))
  /\ http.Logger (http.c final) = http.Logger comp
  /\ http.healthcheck (http.c final)
     = fst (after AddCheck (http.healthcheck comp, probe))
  /\ http.check final = snd (after AddCheck (http.healthcheck comp, probe)).
Proof.
  intros Hperiodic. cbv zeta.
  rewrite (handleCheck_runs_addCheck comp probe Hperiodic), addCheck_run.
  cbv zeta.
  destruct (returned AddCheck (http.healthcheck comp, probe)) as [err |];
    cbn; repeat split; try discriminate; try congruence.
Qed.

(** The two ways [handleCheck] ends. *)
Lemma handleCheck_answers (comp : http.Component R) (probe : H) :
  let resp := fst (http.handle (http.handleCheck AddCheck) comp probe) in
  let final := snd (http.handle (http.handleCheck AddCheck) comp probe) in
  (http.code resp = http.StatusCreated
   /\ forall msg, ~ In (http.Logs ErrorLevel msg) (http.trace final))
  \/ (http.code resp = http.StatusInternalServerError
      /\ last (http.trace final) (http.Logs InfoLevel EmptyString)
         = http.Logs ErrorLevel (http.Message (http.body resp))).
Proof.
  cbv zeta. destruct (hcOneOff probe) eqn:Hmode.
  - rewrite (handleCheck_runs_oneOff AddCheck comp probe Hmode), oneOff_run.
    cbv zeta.
    destruct (returned hcInitialize probe) as [ierr |];
      [| destruct (returned hcExecute (after hcInitialize probe))
           as [xerr |]];
      cbn; [right | right | left]; (split; [reflexivity |]);
      try reflexivity.
    intros msg [Hs | [Hs | [Hs | [Hs | []]]]]; discriminate Hs.
  - rewrite (handleCheck_runs_addCheck comp probe Hmode), addCheck_run.
    cbv zeta.
    destruct (returned AddCheck (http.healthcheck comp, probe)) as [err |];
      cbn; [right | left]; (split; [reflexivity |]); try reflexivity.
    intros msg [Hs | []]; discriminate Hs.
Qed.

(** X13. [handleCheck] answers [201] or [500] and nothing else; when it
    answers [500] the last thing it did was to log, as an error, the very
    message of the response; when it answers [201] it logged no error. *)
Theorem handleCheck_answer_logged (comp : http.Component R) (probe : H) :
  let resp := fst (http.handle (http.handleCheck AddCheck) comp probe) in
  let final := snd (http.handle (http.handleCheck AddCheck) comp probe) in
  (http.code resp = http.StatusCreated
   \/ http.code resp = http.StatusInternalServerError)
  /\ (http.code resp = http.StatusInternalServerError ->
      last (http.trace final) (http.Logs InfoLevel EmptyString)
      = http.Logs ErrorLevel (http.Message (http.body resp)))
  /\ (http.code resp = http.StatusCreated ->
      forall msg, ~ In (http.Logs ErrorLevel msg) (http.trace final)).
Proof.
  cbv zeta.
  destruct (handleCheck_answers comp probe) as [[Hc Hlog] | [Hc Hlog]];
    rewrite Hc; (split; [auto |]); split; intros Hcode;
    try discriminate Hcode; assumption.
Qed.

End MoreDispatch.

Lemma handleCheck_periodic_witness :
  fst (http.handle
         (http.handleCheck
            (H0 := DNSHealthcheck_Healthcheck (answering [ip_10_0_0_1]))
            (refuseAll (errors_New "already there")))
         bareComponent periodicProbe)
  = http.mkResponse http.StatusInternalServerError
      (http.mkBasicResponse "Fail to start the healthcheck: already there").
Proof.
  destruct (handleCheck_periodic
              (H0 := DNSHealthcheck_Healthcheck (answering [ip_10_0_0_1]))
              (refuseAll (errors_New "already there"))
              bareComponent periodicProbe eq_refl)
    as (_ & _ & _ & Herr & _).
  exact (Herr (errors_New "already there") eq_refl).
Defined.

(** ** The routes *)

Section PostFacts.

Context {R C H : Type} `{Healthcheck H}.
Variable label : string.
Variable New : zap_Logger -> C -> H.
Variable AddCheck : method (R * H) (option error).

(** X14. A [POST] route answers [400] exactly when the request does not
    bind, and [201] or [500] otherwise; when the request does not bind the
    route builds no probe, calls nothing, leaves the component as it was
    and logs, as an error, the message it answers with. *)
Theorem post_bind_failure (config : C) (err : option error)
    (comp : http.Component R) :
  let served := http.post label New AddCheck config err comp in
  (http.code (http.response served) = http.StatusBadRequest <-> err <> None)
  /\ (http.code (http.response served) = http.StatusCreated
      \/ http.code (http.response served) = http.StatusBadRequest
      \/ http.code (http.response served) = http.StatusInternalServerError)
  /\ (forall e, err = Some e ->
        http.response served
        = http.mkResponse http.StatusBadRequest
            (http.mkBasicResponse
               ("Fail to create the " ++ label
                ++ " healthcheck. Invalid JSON: " ++ Error e))
        /\ http.component served = comp
        /\ http.probe served = None
        /\ http.steps served
           = [http.Logs ErrorLevel
                (http.Message (http.body (http.response served)))])
  /\ (err = None ->
        http.probe served <> None
        /\ http.response served
           = fst (http.handle (http.handleCheck AddCheck) comp
                    (New (http.Logger comp) config))).
Proof.
  cbv zeta. destruct err as [e |]; unfold http.post.
  - cbn. repeat split; try discriminate; try congruence; auto.
  - pose proof (handleCheck_answers AddCheck comp
                  (New (http.Logger comp) config)) as Hanswers.
    cbv zeta in Hanswers.
    destruct (http.handle (http.handleCheck AddCheck) comp
                (New (http.Logger comp) config)) as [resp st].
    cbn in *.
    destruct Hanswers as [[Hc _] | [Hc _]]; rewrite Hc;
      repeat split; try discriminate; try congruence; auto;
      intros Hbad; try discriminate Hbad; try (now contradiction Hbad).
Qed.

End PostFacts.

(** A one-off [POST /healthcheck/dns] that binds, by what [Execute]
    returns. *)
Lemma postDNS_one_off_run {R : Type}
    (LookupIP : string -> list net.IP * option error)
    (AddCheck : method (R * DNSHealthcheck) (option error))
    (config : DNSHealthcheckConfiguration) (comp : http.Component R) :
  OneOff (base config) = true ->
  http.postDNS LookupIP AddCheck config None comp =
  let h := NewDNSHealthcheck (http.Logger comp) config in
  let entry := http.Logs InfoLevel
                 ("Executing one-off healthcheck " ++ Name (base config)) in
  let init := http.Calls http.mInitialize [] in
  let exec := http.Calls http.mExecute (emitted (Execute LookupIP) h) in
  match returned (Execute LookupIP) h with
  | Some err =>
      let msg := execFailurePrefix ++ Name (base config) ++ " failed: "
                 ++ Error err in
      http.mkServed
        (http.mkResponse http.StatusInternalServerError
           (http.mkBasicResponse msg))
        comp (Some h) [entry; init; exec; http.Logs ErrorLevel msg]
  | None =>
      let msg := successPrefix ++ Name (base config)
                 ++ " successfully executed" in
      http.mkServed
        (http.mkResponse http.StatusCreated (http.mkBasicResponse msg))
        comp (Some h) [entry; init; exec; http.Logs InfoLevel msg]
  end.
Proof.
  intros Hmode. unfold http.postDNS, http.post. cbv zeta.
  rewrite (handleCheck_runs_oneOff
             (H0 := DNSHealthcheck_Healthcheck LookupIP) AddCheck comp
             (NewDNSHealthcheck (http.Logger comp) config) Hmode).
  rewrite oneOff_run. cbv zeta.
  change (returned hcInitialize (NewDNSHealthcheck (http.Logger comp) config))
    with (@None error).
  change (after hcInitialize (NewDNSHealthcheck (http.Logger comp) config))
    with (NewDNSHealthcheck (http.Logger comp) config).
  change (@hcExecute _ (DNSHealthcheck_Healthcheck LookupIP))
    with (Execute LookupIP).
  destruct (Execute_frame LookupIP
              (NewDNSHealthcheck (http.Logger comp) config)) as [-> _].
  destruct (returned (Execute LookupIP)
              (NewDNSHealthcheck (http.Logger comp) config)); reflexivity.
Qed.

(** X15. A one-off [POST /healthcheck/dns] that binds is answered
    [201 Created] exactly when the resolution succeeds and every expected
    address is among the resolved ones under [net.IP.Equal]. *)
Theorem postDNS_one_off_created_iff {R : Type}
    (LookupIP : string -> list net.IP * option error)
    (AddCheck : method (R * DNSHealthcheck) (option error))
    (config : DNSHealthcheckConfiguration) (comp : http.Component R)
    (ips : list net.IP) (err : option error) :
  OneOff (base config) = true ->
  LookupIP (Domain config) = (ips, err) ->
  (http.code
     (http.response (http.postDNS LookupIP AddCheck config None comp))
   = http.StatusCreated
   <-> err = None /\
       forall netIP, In netIP (ExpectedIPs config) ->
         exists respIP, In respIP ips /\ net.Equal netIP respIP = true).
Proof.
  intros Hmode Hlookup.
  rewrite (postDNS_one_off_run LookupIP AddCheck config comp Hmode).
  cbv zeta. rewrite Execute_returned. cbn [Config NewDNSHealthcheck].
  rewrite Hlookup. destruct err as [e |].
  - cbn. split; [discriminate | intros [Hc _]; discriminate Hc].
  - rewrite <- verifyIPs_nil_iff.
    destruct (verifyIPs (ExpectedIPs config) ips); cbn; split;
      try discriminate; try tauto.
    intros [_ Hc]; discriminate Hc.
Qed.

Lemma postDNS_one_off_created_iff_witness :
  http.code
    (http.response
       (http.postDNS (answering [ip_10_0_0_1; ip_10_0_0_2]) acceptAll
          (Config (probeExpecting [ip_10_0_0_2])) None bareComponent))
  = http.StatusCreated.
Proof.
  apply (postDNS_one_off_created_iff
           (answering [ip_10_0_0_1; ip_10_0_0_2]) acceptAll
           (Config (probeExpecting [ip_10_0_0_2]))
           bareComponent [ip_10_0_0_1; ip_10_0_0_2] None eq_refl eq_refl).
  split; [reflexivity |].
  intros netIP [<- | []]. exists ip_10_0_0_2.
  split; [right; left; reflexivity | reflexivity].
Defined.

(** X16. When the resolution of a one-off [POST /healthcheck/dns] fails,
    the answer is [500] and its message chains the three layers: the
    handler's text with the probe's name, the text [Execute] wraps the
    lookup error in, and the lookup error's own text. *)
Theorem postDNS_one_off_lookup_failure {R : Type}
    (LookupIP : string -> list net.IP * option error)
    (AddCheck : method (R * DNSHealthcheck) (option error))
    (config : DNSHealthcheckConfiguration) (comp : http.Component R)
    (ips : list net.IP) (err : error) :
  OneOff (base config) = true ->
  LookupIP (Domain config) = (ips, Some err) ->
  http.response (http.postDNS LookupIP AddCheck config None comp)
  = http.mkResponse http.StatusInternalServerError
      (http.mkBasicResponse
         ("Execution of one off healthcheck " ++ Name (base config)
          ++ " failed: Fail to lookup IP for domain: " ++ Error err)).
Proof.
  intros Hmode Hlookup.
  rewrite (postDNS_one_off_run LookupIP AddCheck config comp Hmode).
  cbv zeta. rewrite Execute_returned. cbn [Config NewDNSHealthcheck].
  rewrite Hlookup. reflexivity.
Qed.

Lemma postDNS_one_off_lookup_failure_witness :
  http.response
    (http.postDNS (failing (net_DNSError "no such host")) acceptAll
       (Config (probeExpecting [])) None bareComponent)
  = http.mkResponse http.StatusInternalServerError
      (http.mkBasicResponse
         "Execution of one off healthcheck dns-check failed: Fail to lookup IP for domain: no such host").
Proof.
  apply (postDNS_one_off_lookup_failure
           (failing (net_DNSError "no such host")) acceptAll
           (Config (probeExpecting [])) bareComponent []
           (net_DNSError "no such host")); reflexivity.
Defined.

(** X17. A one-off [POST /healthcheck/dns] that binds builds its probe
    from the component's logger and the bound configuration and leaves
    both the probe and the component as they were; it calls [Initialize]
    and [Execute] and asks the resolver once, for the configured domain,
    whatever the outcome. *)
Theorem postDNS_one_off_footprint {R : Type}
    (LookupIP : string -> list net.IP * option error)
    (AddCheck : method (R * DNSHealthcheck) (option error))
    (config : DNSHealthcheckConfiguration) (comp : http.Component R) :
  OneOff (base config) = true ->
  let served := http.postDNS LookupIP AddCheck config None comp in
  http.probe served = Some (NewDNSHealthcheck (http.Logger comp) config)
  /\ http.component served = comp
  /\ http.calls (http.steps served) = [http.mInitialize; http.mExecute]
  /\ queries (http.steps served) = [Domain config].
Proof.
  intros Hmode. cbv zeta.
  rewrite (postDNS_one_off_run LookupIP AddCheck config comp Hmode).
  cbv zeta.
  destruct (Execute_frame LookupIP
              (NewDNSHealthcheck (http.Logger comp) config)) as [_ ->].
  destruct (returned (Execute LookupIP)
              (NewDNSHealthcheck (http.Logger comp) config));
    repeat split.
Qed.

Lemma postDNS_one_off_footprint_witness :
  queries
    (http.steps
       (http.postDNS (answering []) acceptAll
          (Config (probeExpecting [ip_10_0_0_1])) None bareComponent))
  = ["example.com"].
Proof.
  apply (postDNS_one_off_footprint (answering []) acceptAll
           (Config (probeExpecting [ip_10_0_0_1])) bareComponent).
  reflexivity.
Defined.

Section DeleteFacts.

Context {R : Type}.
Variable RemoveCheck : string -> method R (option error).

(** X18. The [DELETE] route answers [200] exactly when [RemoveCheck]
    returns no error; otherwise it answers [500] with the text a failed
    [AddCheck] is answered with, "Fail to start the healthcheck", before
    the error's; either way the component keeps its logger and gets the
    state [RemoveCheck] leaves, and the first entry logged announces the
    deletion. *)
Theorem deleteCheck_answers (name : string) (comp : http.Component R) :
  let deleted := http.deleteCheck RemoveCheck name comp in
  (http.code (http.answer deleted) = http.StatusOK <->
   returned (RemoveCheck name) (http.healthcheck comp) = None)
  /\ (returned (RemoveCheck name) (http.healthcheck comp) = None ->
      http.answer deleted
      = http.mkResponse http.StatusOK
          (http.mkBasicResponse ("Successfully deleted healthcheck " ++ name)))
  /\ (forall err,
        returned (RemoveCheck name) (http.healthcheck comp) = Some err ->
        http.answer deleted
        = http.mkResponse http.StatusInternalServerError
            (http.mkBasicResponse
               ("Fail to start the healthcheck: " ++ Error err))
        /\ last (http.logged deleted) (http.Logs InfoLevel EmptyString)
           = http.Logs ErrorLevel
               ("Fail to start the healthcheck: " ++ Error err))
  /\ http.remaining deleted
     = http.mkComponent (http.Logger comp)
         (after (RemoveCheck name) (http.healthcheck comp))
  /\ hd_error (http.logged deleted)
     = Some (http.Logs InfoLevel ("Deleting healthcheck " ++ name)).
Proof.
  cbv zeta. unfold http.deleteCheck.
  rewrite (run_eta (RemoveCheck name) (http.healthcheck comp)). cbn.
  destruct (returned (RemoveCheck name) (http.healthcheck comp)) as [err |];
    cbn; repeat split; try discriminate; try congruence.
Qed.

End DeleteFacts.

(** ** The form of the resolved addresses *)

Lemma Equal_To16_r (a x : net.IP) :
  wellFormed x -> net.Equal a (net.To16 x) = net.Equal a x.
Proof.
  intros Hx. pose proof (wellFormed_To16 x Hx) as Hx16.
  destruct (net.Equal a (net.To16 x)) eqn:E1, (net.Equal a x) eqn:E2;
    try reflexivity.
  - apply Equal_To16 in E1 as [E1 Ha]; [| exact Hx16].
    rewrite (To16_To16 x Hx) in E1.
    assert (net.Equal a x = true) as Ht by (apply Equal_To16; auto).
    congruence.
  - apply Equal_To16 in E2 as [E2 Ha]; [| exact Hx].
    assert (net.Equal a (net.To16 x) = true) as Ht.
    { apply Equal_To16; [exact Hx16 |]. rewrite (To16_To16 x Hx). auto. }
    congruence.
Qed.

(** X19. [verifyIPs] does not depend on the form the resolver answers
    in: with every well-formed resolved address replaced by its 16-byte
    form, the result is the same, the error included. *)
Theorem verifyIPs_resolved_form (expectedIPs : list IP)
    (lookupIPs : list net.IP) :
  Forall wellFormed lookupIPs ->
  verifyIPs expectedIPs (map net.To16 lookupIPs)
  = verifyIPs expectedIPs lookupIPs.
Proof.
  intros Hwf. rewrite !verifyIPs_missing.
  replace (missing expectedIPs (map net.To16 lookupIPs))
    with (missing expectedIPs lookupIPs); [reflexivity |].
  unfold missing. apply filter_ext. intros netIP. f_equal.
  induction Hwf as [| x rest Hx Hrest IH]; [reflexivity |].
  cbn [map scanLookup]. now rewrite (Equal_To16_r netIP x Hx), IH.
Qed.

Lemma verifyIPs_resolved_form_witness :
  verifyIPs [ip_10_0_0_1; ip_10_0_0_5] (map net.To16 [ip_10_0_0_1])
  = verifyIPs [ip_10_0_0_1; ip_10_0_0_5] [ip_10_0_0_1].
Proof.
  apply (verifyIPs_resolved_form [ip_10_0_0_1; ip_10_0_0_5] [ip_10_0_0_1]).
  apply Forall_cons; [left; reflexivity | apply Forall_nil].
Defined.
